(** * django_typomatic: TypeScript interfaces from Django REST Framework serializers

    A shallow embedding of [django_typomatic/__init__.py]: the three
    module-level registries, the two class decorators [ts_field] and
    [ts_interface], the field resolver [__process_field], the interface
    renderer [__get_ts_interface] and the emitter [generate_ts].

    Python's module globals and the output file are threaded through a
    state-and-exception monad; a subscript [d[k]] on a missing key raises
    [KeyError] here exactly where it does in Python. *)

From Stdlib Require Import Ascii String.
From stdpp Require Import gmap strings list fin_maps.

(** ** The host object model: classes and field instances *)

(** The three rest_framework classes the module tests against with
    [issubclass].  In rest_framework, [ModelSerializer] derives from
    [Serializer], which derives (through [BaseSerializer]) from [Field]. *)
Inductive DrfClass :=
  | serializers_Field
  | serializers_Serializer
  | serializers_ModelSerializer.

(** The most derived of those classes found among a class's ancestors. *)
Inductive Ancestry :=
  | NotAField
  | IsField
  | IsSerializer
  | IsModelSerializer.

(** A Python class object.  [cls_id] stands for the object's identity: class
    objects are compared and hashed by identity, and two classes may share
    their [__name__]. *)
Record Class := MkClass {
  cls_id : positive;
  __name__ : string;
  cls_ancestry : Ancestry
}.

Definition issubclass (cls : Class) (base : DrfClass) : bool :=
  match base, cls_ancestry cls with
  | serializers_Field, (IsField | IsSerializer | IsModelSerializer) => true
  | serializers_Serializer, (IsSerializer | IsModelSerializer) => true
  | serializers_ModelSerializer, IsModelSerializer => true
  | _, _ => false
  end.

#[local] Set Warnings "-register-all".

(** A field instance: its class ([type(field)]) and, when the instance has
    a [child] attribute, that child instance. *)
Inductive FieldInstance :=
  | Instance (cls : Class) (child : option FieldInstance).

Definition type_ (field : FieldInstance) : Class :=
  match field with Instance cls _ => cls end.

Definition child (field : FieldInstance) : option FieldInstance :=
  match field with Instance _ c => c end.

(** [hasattr(field, 'child')] *)
Definition hasattr_child (field : FieldInstance) : bool :=
  match child field with Some _ => true | None => false end.

#[global] Instance Ancestry_eq_dec : EqDecision Ancestry.
Proof. solve_decision. Defined.

#[global] Instance Class_eq_dec : EqDecision Class.
Proof. solve_decision. Defined.

Definition Ancestry_to_nat (a : Ancestry) : nat :=
  match a with
  | NotAField => 0 | IsField => 1 | IsSerializer => 2 | IsModelSerializer => 3
  end.

Definition Ancestry_of_nat (n : nat) : Ancestry :=
  match n with
  | 0 => NotAField | 1 => IsField | 2 => IsSerializer | _ => IsModelSerializer
  end.

#[global] Instance Ancestry_countable : Countable Ancestry.
Proof.
  apply (inj_countable' Ancestry_to_nat Ancestry_of_nat).
  by intros [].
Defined.

#[global] Instance Class_countable : Countable Class.
Proof.
  apply (inj_countable'
           (λ c, (cls_id c, __name__ c, cls_ancestry c))
           (λ t, MkClass t.1.1 t.1.2 t.2)).
  by intros [].
Defined.

(** ** Python dictionaries

    [__serializers] is iterated by [generate_ts], and a Python dict iterates
    in insertion order, so it is kept as an association list with unique
    keys.  The other two registries are only ever looked up and are finite
    maps. *)

Section OrderedDict.
Context {V : Type}.

Fixpoint od_lookup (k : string) (d : list (string * V)) : option V :=
  match d with
  | [] => None
  | (k', v) :: d' => if decide (k = k') then Some v else od_lookup k d'
  end.

(** [d[k] = v]: an existing key keeps its position, a new key goes last. *)
Fixpoint od_setitem (k : string) (v : V) (d : list (string * V))
  : list (string * V) :=
  match d with
  | [] => [(k, v)]
  | (k', v') :: d' =>
      if decide (k = k') then (k, v) :: d' else (k', v') :: od_setitem k v d'
  end.

(** [k in d] *)
Definition od_contains (k : string) (d : list (string * V)) : bool :=
  match od_lookup k d with Some _ => true | None => false end.

Definition od_keys (d : list (string * V)) : list string := d.*1.
End OrderedDict.

(** [k in m] for a finite map. *)
Definition contains `{Countable K} {V} (k : K) (m : gmap K V) : bool :=
  match m !! k with Some _ => true | None => false end.

(** [x in l] for a Python list. *)
Definition list_contains `{EqDecision A} (x : A) (l : list A) : bool :=
  bool_decide (x ∈ l).

(** ** Program state: the module globals and the file system *)

Record State := MkState {
  (* Serializers *)
  __serializers : list (string * list Class);
  (* Custom serializers.Field to TS Type mappings *)
  __field_mappings : gmap string (gmap Class string);
  (* Custom field_name to TS Type overrides *)
  __mapping_overrides : gmap string (gmap Class (gmap string string));
  (* Contents of the files, by path *)
  files : gmap string string
}.

(** Default/Shared context *)
Definition __default_context : string := "default".

Definition set_serializers (v : list (string * list Class)) (s : State) : State :=
  MkState v (__field_mappings s) (__mapping_overrides s) (files s).

Definition set_field_mappings (v : gmap string (gmap Class string)) (s : State)
  : State :=
  MkState (__serializers s) v (__mapping_overrides s) (files s).

Definition set_mapping_overrides
  (v : gmap string (gmap Class (gmap string string))) (s : State) : State :=
  MkState (__serializers s) (__field_mappings s) v (files s).

Definition set_files (v : gmap string string) (s : State) : State :=
  MkState (__serializers s) (__field_mappings s) (__mapping_overrides s) v.

(** The state of a freshly imported module. *)
Definition initial_state (fs : gmap string string) : State :=
  MkState [] ∅ ∅ fs.

(** ** The state-and-exception monad *)

Inductive exn := KeyError.

Inductive outcome (A : Type) :=
  | Returns (a : A)
  | Raises (e : exn).
Arguments Returns {A} a.
Arguments Raises {A} e.

(** A computation runs from a state to an outcome and the state it leaves;
    a raised exception keeps whatever was mutated before it. *)
Definition M (A : Type) : Type := State → outcome A * State.

#[global] Instance M_ret : MRet M := λ A a s, (Returns a, s).

#[global] Instance M_bind : MBind M := λ A B f m s,
  match m s with
  | (Returns a, s') => f a s'
  | (Raises e, s') => (Raises e, s')
  end.

Definition raise {A} (e : exn) : M A := λ s, (Raises e, s).
Definition read {A} (f : State → A) : M A := λ s, (Returns (f s), s).
Definition modify (f : State → State) : M () := λ s, (Returns (), f s).

(** [d[k]] on an ordered dict and on a finite map. *)
Definition od_getitem {V} (d : list (string * V)) (k : string) : M V :=
  match od_lookup k d with Some v => mret v | None => raise KeyError end.

Definition getitem `{Countable K} {V} (m : gmap K V) (k : K) : M V :=
  match m !! k with Some v => mret v | None => raise KeyError end.

(** [if c: body] without an else branch. *)
Definition when (c : bool) (body : M ()) : M () :=
  if c then body else mret ().

(** [for x in l: body] *)
Fixpoint for_ {A} (l : list A) (body : A → M ()) : M () :=
  match l with
  | [] => mret ()
  | x :: l' => body x;; for_ l' body
  end.

(** [[f(x) for x in l]] *)
Fixpoint list_comprehension {A B} (f : A → M B) (l : list A) : M (list B) :=
  match l with
  | [] => mret []
  | x :: l' => y ← f x; ys ← list_comprehension f l'; mret (y :: ys)
  end.

(** ** The decorators *)

Definition ts_field (ts_type : string) (context : string) (cls : Class)
  : M Class :=
  when (issubclass cls serializers_Field) (
    fm ← read __field_mappings;
    when (negb (contains context fm))
      (modify (set_field_mappings (<[context := ∅]> fm)));;
    fm ← read __field_mappings;
    inner ← getitem fm context;
    when (negb (contains cls inner)) (
      fm ← read __field_mappings;
      inner ← getitem fm context;
      modify (set_field_mappings (<[context := <[cls := ts_type]> inner]> fm))
    )
  );;
  mret cls.

(** [if mapping_overrides:] is false for [None] and for an empty dict. *)
Definition truthy (mapping_overrides : option (gmap string string)) : bool :=
  match mapping_overrides with
  | Some d => negb (bool_decide (d = ∅))
  | None => false
  end.

Definition ts_interface (context : string)
  (mapping_overrides : option (gmap string string)) (cls : Class) : M Class :=
  when (issubclass cls serializers_Serializer) (
    sers ← read __serializers;
    when (negb (od_contains context sers))
      (modify (set_serializers (od_setitem context [] sers)));;
    sers ← read __serializers;
    l ← od_getitem sers context;
    modify (set_serializers (od_setitem context (l ++ [cls]) sers));;
    when (truthy mapping_overrides) (
      mo ← read __mapping_overrides;
      when (negb (contains context mo))
        (modify (set_mapping_overrides (<[context := ∅]> mo)));;
      mo ← read __mapping_overrides;
      inner ← getitem mo context;
      when (negb (contains cls inner)) (
        mo ← read __mapping_overrides;
        inner ← getitem mo context;
        modify (set_mapping_overrides
                  (<[context := <[cls := default ∅ mapping_overrides]> inner]> mo))
      )
    )
  );;
  mret cls.

(** ** Strings *)

(** The line feed, Python's ['\n']. *)
Definition nl : string := String "010"%char "".

(** [re.sub('Serializer$', '', name)].  The scan goes left to right; the
    pattern matches at a position when what remains of the string is exactly
    [Serializer], or [Serializer] followed by one final line feed (Python's
    [$] also matches just before a line feed that ends the string).  The
    matched text is dropped and what follows it is kept. *)
Fixpoint re_sub_Serializer_end (name : string) : string :=
  if decide (name = "Serializer") then ""
  else if decide (name = "Serializer" +:+ nl) then nl
  else match name with
       | EmptyString => EmptyString
       | String c rest => String c (re_sub_Serializer_end rest)
       end.

Definition __get_interface_name (name prefix suffix : string) : string :=
  let name := re_sub_Serializer_end name in
  prefix +:+ name +:+ suffix.

(** ** Resolver, renderer and emitter *)

(** [a and b], where [b] is only evaluated when [a] is true. *)
Definition and_ (a b : M bool) : M bool :=
  x ← a; if (x : bool) then b else mret false.

(** A [for] loop that carries the variables its body updates. *)
Fixpoint for_fold {A S} (l : list A) (acc : S) (body : S → A → M S) : M S :=
  match l with
  | [] => mret acc
  | x :: l' => acc' ← body acc x; for_fold l' acc' body
  end.

(** [open(path, 'w')] truncates the file; [write] appends to it.  Files are
    told apart by their path string, and opening is taken to succeed: the
    [OSError] Python raises for a path that cannot be opened (which would
    end [generate_ts] before anything is read) is not modelled. *)
Definition open_w (path : string) : M () :=
  modify (λ s, set_files (<[path := ""]> (files s)) s).

Definition write (path data : string) : M () :=
  modify (λ s,
    set_files (<[path := default "" (files s !! path) +:+ data]> (files s)) s).

Section Typomatic.
(** The static table of [mappings.py], from field classes to TypeScript
    types; the module is imported, not defined, by [__init__.py]. *)
Variable mappings : gmap Class string.

(** The host's field lists, in declaration order:
    [serializer._declared_fields.items()] and, for a model serializer,
    [serializer().get_fields().items()].  Both are taken as given: an
    exception rest_framework raises while it builds the fields of a model
    serializer is not modelled. *)
Variable _declared_fields : Class → list (string * FieldInstance).
Variable get_fields : Class → list (string * FieldInstance).

(** Generates and returns a tuple representing the Typescript field name
    and Type. *)
Definition __process_field (field_name : string) (field : FieldInstance)
  (context : string) (serializer : Class) (prefix suffix : string)
  : M (string * string) :=
  let is_many := hasattr_child field in
  (* is_many and type(field.child) or type(field): a class is truthy *)
  let field_type :=
    match child field with Some c => type_ c | None => type_ field end in
  (* the globals are read once: nothing in this function writes them *)
  sers ← read __serializers;
  fm ← read __field_mappings;
  mo ← read __mapping_overrides;
  ts_type ← (
    c ← (l ← od_getitem sers context; mret (list_contains field_type l));
    if (c : bool) then
      mret (__get_interface_name (__name__ field_type) prefix suffix)
    else
    c ← and_ (mret (od_contains __default_context sers))
             (l ← od_getitem sers __default_context;
              mret (list_contains field_type l));
    if (c : bool) then
      mret (__get_interface_name (__name__ field_type) prefix suffix)
    else
    c ← and_ (mret (contains context fm))
             (m ← getitem fm context; mret (contains field_type m));
    if (c : bool) then
      m ← getitem fm context; mret (default "any" (m !! field_type))
    else
    c ← and_ (mret (contains __default_context fm))
             (m ← getitem fm __default_context;
              mret (contains field_type m));
    if (c : bool) then
      m ← getitem fm __default_context;
      mret (default "any" (m !! field_type))
    else
    c ← and_ (mret (contains context mo))
          (and_ (m ← getitem mo context; mret (contains serializer m))
                (m ← getitem mo context; o ← getitem m serializer;
                 mret (contains field_name o)));
    if (c : bool) then
      m ← getitem mo context; o ← getitem m serializer;
      mret (default "any" (o !! field_name))
    else
      mret (default "any" (mappings !! field_type)));
  let ts_type := if is_many then ts_type +:+ "[]" else ts_type in
  mret (field_name, ts_type).

(** Generates and returns a Typescript Interface by iterating through the
    serializer fields of the DRF Serializer class passed in as a parameter,
    and mapping them to the appropriate Typescript data type. *)
Definition __get_ts_interface (serializer : Class)
  (context ts_interface_prefix ts_interface_suffix : string) : M string :=
  let name := __name__ serializer in
  let fields :=
    if issubclass serializer serializers_ModelSerializer
    then get_fields serializer
    else _declared_fields serializer in
  acc ← for_fold fields ([], []) (λ acc kv,
    let ts_fields := acc.1 in
    let ts_indexable_types := acc.2 in
    ts_field ← __process_field kv.1 kv.2 context serializer
                 ts_interface_prefix ts_interface_suffix;
    let ts_fields :=
      ts_fields ++ ["    " +:+ ts_field.1 +:+ ": " +:+ ts_field.2 +:+ ";"] in
    let ts_indexable_types :=
      if list_contains ts_field.2 ts_indexable_types
      then ts_indexable_types
      else ts_indexable_types ++ [ts_field.2] in
    mret (ts_fields, ts_indexable_types));
  let ts_fields := acc.1 in
  let ts_indexable_types := acc.2 in
  let collapsed_fields := String.concat nl ts_fields in
  let ts_indexable_type := String.concat " | " ts_indexable_types in
  let name :=
    __get_interface_name name ts_interface_prefix ts_interface_suffix in
  let indexable_type_str := "    [x: string]: " +:+ ts_indexable_type +:+ ";" in
  mret ("  export interface " +:+ name +:+ " {" +:+ nl
        +:+ indexable_type_str +:+ nl
        +:+ collapsed_fields +:+ nl
        +:+ "  }" +:+ nl +:+ nl).

(** Writes, for each declared context selected by [context] or
    [all_contexts], the interfaces of its serializers to the file at
    [output_path]. *)
Definition generate_ts (output_path context ts_interface_prefix
  ts_interface_suffix : string) (all_contexts : bool) : M () :=
  open_w output_path;;
  sers ← read __serializers;
  for_ (od_keys sers) (λ declared_context,
    when (all_contexts || bool_decide (context = declared_context)) (
      sers ← read __serializers;
      registered ← od_getitem sers declared_context;
      interfaces ← list_comprehension
        (λ serializer, __get_ts_interface serializer declared_context
                         ts_interface_prefix ts_interface_suffix)
        registered;
      write output_path
        (nl +:+ "declare namespace " +:+ declared_context +:+ " {" +:+ nl +:+ nl);;
      write output_path (String.concat "" interfaces);;
      write output_path "}"
    )).
End Typomatic.

(** ** The resolver of the specification

    Section 4.3 of the specification, in its own words: the base kind of a
    field, the tiers 2 to 6 as partial answers, the static table as tier 7,
    and "first match wins" over the tiers in order. *)

Section Resolver.
Variable mappings : gmap Class string.

Definition base_kind (field : FieldInstance) : Class :=
  match child field with Some c => type_ c | None => type_ field end.

(** Tiers 2 and 3: the base kind is a schema registered in [context]. *)
Definition tier_schema (s : State) (context : string) (kind : Class)
  (prefix suffix : string) : option string :=
  l ← od_lookup context (__serializers s);
  if bool_decide (kind ∈ l)
  then Some (__get_interface_name (__name__ kind) prefix suffix)
  else None.

(** Tiers 4 and 5: [context] has a field-kind override for the base kind. *)
Definition tier_field_kind (s : State) (context : string) (kind : Class)
  : option string :=
  m ← __field_mappings s !! context; m !! kind.

(** Tier 6: the owning schema has a per-field-name override in [context]. *)
Definition tier_field_name (s : State) (context : string) (schema : Class)
  (field_name : string) : option string :=
  m ← __mapping_overrides s !! context; o ← m !! schema; o !! field_name.

(** Tier 7: the static table, with its fallback. *)
Definition tier_static (kind : Class) : string :=
  default "any" (mappings !! kind).

Fixpoint first_match (tiers : list (option string)) (fallback : string)
  : string :=
  match tiers with
  | [] => fallback
  | Some t :: _ => t
  | None :: tiers' => first_match tiers' fallback
  end.

Definition tiers (s : State) (field_name : string) (field : FieldInstance)
  (context : string) (schema : Class) (prefix suffix : string)
  : list (option string) :=
  [ tier_schema s context (base_kind field) prefix suffix;
    tier_schema s __default_context (base_kind field) prefix suffix;
    tier_field_kind s context (base_kind field);
    tier_field_kind s __default_context (base_kind field);
    tier_field_name s context schema field_name ].

(** The type string before array notation is appended. *)
Definition resolve_base (s : State) (field_name : string)
  (field : FieldInstance) (context : string) (schema : Class)
  (prefix suffix : string) : string :=
  first_match (tiers s field_name field context schema prefix suffix)
              (tier_static (base_kind field)).

Definition resolve (s : State) (field_name : string) (field : FieldInstance)
  (context : string) (schema : Class) (prefix suffix : string) : string :=
  let t := resolve_base s field_name field context schema prefix suffix in
  if hasattr_child field then t +:+ "[]" else t.

Lemma __process_field_returns s field_name field context serializer prefix suffix :
  is_Some (od_lookup context (__serializers s)) →
  __process_field mappings field_name field context serializer prefix suffix s
  = (Returns (field_name,
              resolve s field_name field context serializer prefix suffix), s).
Proof.
  intros [l Hl].
  unfold __process_field, resolve, resolve_base, tiers, tier_schema,
    tier_field_kind, tier_field_name, tier_static, base_kind.
  unfold and_, od_getitem, getitem, contains, od_contains, list_contains, read.
  unfold mbind, M_bind, mret, M_ret, option_bind, raise. simpl.
  rewrite Hl. simpl.
  set (k := match child field with Some c => type_ c | None => type_ field end).
  generalize (hasattr_child field) as is_many. intros is_many.
  destruct (bool_decide (k ∈ l)); simpl; [done|].
  destruct (od_lookup __default_context (__serializers s)) as [l'|]; simpl;
    [destruct (bool_decide (k ∈ l')); simpl; [done|] |];
    (destruct (__field_mappings s !! context) as [m|]; simpl;
      [destruct (m !! k); simpl; [done|] |]);
    (destruct (__field_mappings s !! __default_context) as [m'|]; simpl;
      [destruct (m' !! k); simpl; [done|] |]);
    (destruct (__mapping_overrides s !! context) as [mo|]; simpl; [|done]);
    (destruct (mo !! serializer) as [o|]; simpl; [|done]);
    by destruct (o !! field_name).
Qed.

(** Outside [generate_ts] the function can be called with a context no
    serializer was registered in: [__serializers[context]] then raises. *)
Lemma __process_field_raises s field_name field context serializer prefix suffix :
  od_lookup context (__serializers s) = None →
  __process_field mappings field_name field context serializer prefix suffix s
  = (Raises KeyError, s).
Proof.
  intros Hctx. unfold __process_field, od_getitem, read.
  unfold mbind, M_bind. by rewrite Hctx.
Qed.
End Resolver.

(** ** Strings and ordered dicts: basic facts *)

Lemma append_cons (c : ascii) (a b : string) :
  String c a +:+ b = String c (a +:+ b).
Proof. reflexivity. Qed.

Lemma append_nil_r (a : string) : a +:+ "" = a.
Proof. induction a as [|c a IH]; [done | by rewrite append_cons, IH]. Qed.

Lemma append_assoc (a b c : string) : (a +:+ b) +:+ c = a +:+ (b +:+ c).
Proof. induction a as [|x a IH]; [done | by rewrite !append_cons, IH]. Qed.

Lemma concat_empty_cons (x : string) (xs : list string) :
  String.concat "" (x :: xs) = x +:+ String.concat "" xs.
Proof. destruct xs; simpl; [by rewrite append_nil_r | done]. Qed.

Lemma od_lookup_is_Some {V} (k : string) (d : list (string * V)) :
  k ∈ od_keys d ↔ is_Some (od_lookup k d).
Proof.
  unfold od_keys. induction d as [|[k' v] d IH]; simpl.
  - split; [by intros ?%elem_of_nil | by intros [? ?]].
  - rewrite elem_of_cons, IH. case_decide; [|tauto].
    split; [by eexists | by left].
Qed.

(** ** Running the monad *)

Section MonadSteps.
Context {A B C : Type}.

Lemma bind_ret (a : A) (k : A → M B) s : (mret a ≫= k) s = k a s.
Proof. done. Qed.

Lemma bind_raise (e : exn) (k : A → M B) s :
  (raise e ≫= k) s = (Raises e, s).
Proof. done. Qed.

Lemma bind_read (f : State → A) (k : A → M B) s :
  (read f ≫= k) s = k (f s) s.
Proof. done. Qed.

Lemma bind_modify (f : State → State) (k : () → M B) s :
  (modify f ≫= k) s = k () (f s).
Proof. done. Qed.

Lemma bind_assoc (m : M A) (f : A → M B) (g : B → M C) s :
  ((m ≫= f) ≫= g) s = (m ≫= λ x, f x ≫= g) s.
Proof. unfold mbind, M_bind. by destruct (m s) as [[a|e] s']. Qed.

Lemma bind_when_true (body : M ()) (k : () → M B) s :
  (when true body ≫= k) s = (body ≫= k) s.
Proof. done. Qed.

Lemma bind_when_false (body : M ()) (k : () → M B) s :
  (when false body ≫= k) s = k () s.
Proof. done. Qed.

Lemma bind_od_getitem (d : list (string * A)) (key : string) (v : A)
    (k : A → M B) s :
  od_lookup key d = Some v → (od_getitem d key ≫= k) s = k v s.
Proof. intros H. unfold od_getitem. by rewrite H. Qed.

Lemma bind_getitem `{Countable K} (m : gmap K A) (key : K) (v : A)
    (k : A → M B) s :
  m !! key = Some v → (getitem m key ≫= k) s = k v s.
Proof. intros Hv. unfold getitem. by rewrite Hv. Qed.
End MonadSteps.

Ltac mstep :=
  repeat first
    [ rewrite bind_assoc | rewrite bind_ret | rewrite bind_read
    | rewrite bind_modify | rewrite bind_when_true | rewrite bind_when_false
    | progress cbv beta ].

Lemma contains_true `{Countable K} {V} (k : K) (m : gmap K V) (v : V) :
  m !! k = Some v → contains k m = true.
Proof. intros Hv. unfold contains. by rewrite Hv. Qed.

Lemma contains_false `{Countable K} {V} (k : K) (m : gmap K V) :
  m !! k = None → contains k m = false.
Proof. intros Hv. unfold contains. by rewrite Hv. Qed.

Lemma for_fold_pure {A S} (l : list A) (acc : S) (body : S → A → M S)
    (step : S → A → S) (s : State) :
  (∀ acc x, x ∈ l → body acc x s = (Returns (step acc x), s)) →
  for_fold l acc body s = (Returns (fold_left step l acc), s).
Proof.
  revert acc. induction l as [|x l IH]; intros acc Hbody; [done|].
  simpl. unfold mbind, M_bind. rewrite Hbody by left.
  apply IH. intros acc' y Hy. apply Hbody. by right.
Qed.

Lemma list_comprehension_pure {A B} (f : A → M B) (g : A → B) (l : list A)
    (s : State) :
  (∀ x, x ∈ l → f x s = (Returns (g x), s)) →
  list_comprehension f l s = (Returns (g <$> l), s).
Proof.
  induction l as [|x l IH]; intros Hf; [done|].
  simpl. unfold mbind, M_bind. rewrite Hf by left.
  rewrite IH; [done|]. intros y Hy. apply Hf. by right.
Qed.

Lemma fold_left_fmap {A B S} (f : A → B) (step : S → B → S) (l : list A)
    (acc : S) :
  fold_left step (f <$> l) acc = fold_left (λ acc x, step acc (f x)) l acc.
Proof. revert acc. induction l as [|x l IH]; intros acc; simpl; auto. Qed.

(** ** The renderer as a function of the registries *)

(** [if t not in ts_indexable_types: ts_indexable_types.append(t)] *)
Definition add_indexable (ts_indexable_types : list string) (t : string)
  : list string :=
  if list_contains t ts_indexable_types
  then ts_indexable_types
  else ts_indexable_types ++ [t].

Definition field_line (ts_field : string * string) : string :=
  "    " +:+ ts_field.1 +:+ ": " +:+ ts_field.2 +:+ ";".

Definition index_signature_line (ts_indexable_types : list string) : string :=
  "    [x: string]: " +:+ String.concat " | " ts_indexable_types +:+ ";".

Section Renderer.
Variable mappings : gmap Class string.
Variable _declared_fields : Class → list (string * FieldInstance).
Variable get_fields : Class → list (string * FieldInstance).

(** The ordered field list the renderer iterates over. *)
Definition fields_of (serializer : Class) : list (string * FieldInstance) :=
  if issubclass serializer serializers_ModelSerializer
  then get_fields serializer
  else _declared_fields serializer.

(** Name and resolved type of every field, in field order. *)
Definition resolved_fields (s : State) (serializer : Class)
  (context prefix suffix : string) : list (string * string) :=
  (λ kv, (kv.1, resolve mappings s kv.1 kv.2 context serializer prefix suffix))
    <$> fields_of serializer.

Definition indexable_types (s : State) (serializer : Class)
  (context prefix suffix : string) : list string :=
  fold_left add_indexable
    ((resolved_fields s serializer context prefix suffix).*2) [].

Definition render (s : State) (serializer : Class)
  (context prefix suffix : string) : string :=
  "  export interface "
  +:+ __get_interface_name (__name__ serializer) prefix suffix
  +:+ " {" +:+ nl
  +:+ index_signature_line (indexable_types s serializer context prefix suffix)
  +:+ nl
  +:+ String.concat nl
        (field_line <$> resolved_fields s serializer context prefix suffix)
  +:+ nl +:+ "  }" +:+ nl +:+ nl.

Lemma fold_left_accumulators (l : list (string * string))
    (ts_fields ts_indexable_types : list string) :
  fold_left (λ (acc : list string * list string) ts_field,
               (acc.1 ++ [field_line ts_field],
                add_indexable acc.2 ts_field.2))
            l (ts_fields, ts_indexable_types)
  = (ts_fields ++ (field_line <$> l),
     fold_left add_indexable (l.*2) ts_indexable_types).
Proof.
  revert ts_fields ts_indexable_types.
  induction l as [|x l IH]; intros a b; simpl.
  - by rewrite app_nil_r.
  - rewrite IH. by rewrite <- app_assoc.
Qed.

Lemma __get_ts_interface_returns s serializer context prefix suffix :
  is_Some (od_lookup context (__serializers s)) →
  __get_ts_interface mappings _declared_fields get_fields
    serializer context prefix suffix s
  = (Returns (render s serializer context prefix suffix), s).
Proof.
  intros Hctx. unfold __get_ts_interface.
  unfold mbind at 1. unfold M_bind.
  rewrite (for_fold_pure _ _ _
    (λ acc kv,
       let ts_field :=
         (kv.1, resolve mappings s kv.1 kv.2 context serializer prefix suffix) in
       (acc.1 ++ [field_line ts_field], add_indexable acc.2 ts_field.2))).
  2:{ intros acc kv _. unfold mbind, M_bind.
      by rewrite __process_field_returns. }
  unfold render, indexable_types, resolved_fields, fields_of,
    index_signature_line.
  rewrite <- (fold_left_fmap
    (λ kv, (kv.1, resolve mappings s kv.1 kv.2 context serializer prefix suffix))
    (λ (acc : list string * list string) ts_field,
       (acc.1 ++ [field_line ts_field], add_indexable acc.2 ts_field.2))).
  by rewrite fold_left_accumulators.
Qed.
End Renderer.

(** ** The emitter as a function of the registries *)

Definition registered (s : State) (context : string) : list Class :=
  default [] (od_lookup context (__serializers s)).

Definition selected (all_contexts : bool) (context declared_context : string)
  : bool :=
  all_contexts || bool_decide (context = declared_context).

Section Emitter.
Variable mappings : gmap Class string.
Variable _declared_fields : Class → list (string * FieldInstance).
Variable get_fields : Class → list (string * FieldInstance).

Abbreviation render := (render mappings _declared_fields get_fields).

(** What the three [write] calls of one selected context add to the file. *)
Definition namespace_block (s : State) (declared_context prefix suffix : string)
  : string :=
  (nl +:+ "declare namespace " +:+ declared_context +:+ " {" +:+ nl +:+ nl)
  +:+ String.concat ""
        ((λ serializer, render s serializer declared_context prefix suffix)
           <$> registered s declared_context)
  +:+ "}".

Definition emitted (s : State) (context prefix suffix : string)
  (all_contexts : bool) : string :=
  String.concat ""
    ((λ c, namespace_block s c prefix suffix)
       <$> filter (λ c, selected all_contexts context c)
             (od_keys (__serializers s))).

Lemma render_set_files fs s serializer context prefix suffix :
  render (set_files fs s) serializer context prefix suffix
  = render s serializer context prefix suffix.
Proof. done. Qed.

(** The body of the loop of [generate_ts]. *)
Definition emit_context (output_path context prefix suffix : string)
  (all_contexts : bool) (declared_context : string) : M () :=
  when (all_contexts || bool_decide (context = declared_context)) (
    sers ← read __serializers;
    registered ← od_getitem sers declared_context;
    interfaces ← list_comprehension
      (λ serializer, __get_ts_interface mappings _declared_fields get_fields
                       serializer declared_context prefix suffix)
      registered;
    write output_path
      (nl +:+ "declare namespace " +:+ declared_context +:+ " {" +:+ nl +:+ nl);;
    write output_path (String.concat "" interfaces);;
    write output_path "}").

(** The state in which [output_path] holds [text] and nothing else of [s]
    has changed. *)
Definition with_file (output_path text : string) (s : State) : State :=
  set_files (<[output_path := text]> (files s)) s.

Lemma emit_context_returns s output_path context prefix suffix all_contexts
    k acc :
  is_Some (od_lookup k (__serializers s)) →
  emit_context output_path context prefix suffix all_contexts k
    (with_file output_path acc s)
  = (Returns (),
     with_file output_path
       (acc +:+ (if selected all_contexts context k
                 then namespace_block s k prefix suffix else "")) s).
Proof.
  intros [l Hl]. unfold emit_context.
  fold (selected all_contexts context k).
  destruct (selected all_contexts context k).
  - unfold when, read, od_getitem. unfold mbind at 1 2 3. unfold M_bind.
    unfold with_file at 1 2. cbn [__serializers set_files]. rewrite Hl.
    unfold mret at 1. unfold M_ret.
    rewrite (list_comprehension_pure _
               (λ serializer, render s serializer k prefix suffix)).
    2:{ intros x _. rewrite __get_ts_interface_returns.
        - done.
        - cbn [__serializers set_files]. by rewrite Hl. }
    unfold write, modify, mbind, M_bind, with_file.
    cbn [files set_files __serializers __field_mappings __mapping_overrides].
    rewrite !lookup_insert_eq, !insert_insert_eq. cbn [default].
    unfold set_files. cbn [files]. do 3 f_equal.
    unfold namespace_block, registered. rewrite Hl. cbn [default].
    unfold id. by rewrite !append_assoc.
  - unfold when, mret, M_ret. by rewrite append_nil_r.
Qed.

Lemma emit_loop s output_path context prefix suffix all_contexts ks acc :
  ks ⊆ od_keys (__serializers s) →
  for_ ks (emit_context output_path context prefix suffix all_contexts)
    (with_file output_path acc s)
  = (Returns (),
     with_file output_path
       (acc +:+ String.concat ""
          ((λ c, namespace_block s c prefix suffix)
             <$> filter (λ c, selected all_contexts context c) ks)) s).
Proof.
  revert acc. induction ks as [|k ks IH]; intros acc Hks.
  - simpl. by rewrite append_nil_r.
  - cbn [for_]. unfold mbind, M_bind.
    rewrite emit_context_returns
      by (apply od_lookup_is_Some, Hks; by left).
    rewrite IH by (intros x Hx; apply Hks; by right).
    rewrite append_assoc. do 2 f_equal. rewrite filter_cons.
    destruct (selected all_contexts context k).
    + rewrite decide_True by done.
      by rewrite fmap_cons, concat_empty_cons.
    + by rewrite decide_False by (by intros ?).
Qed.

Lemma generate_ts_returns s output_path context prefix suffix all_contexts :
  generate_ts mappings _declared_fields get_fields
    output_path context prefix suffix all_contexts s
  = (Returns (),
     with_file output_path (emitted s context prefix suffix all_contexts) s).
Proof.
  unfold generate_ts, open_w, modify, read. unfold mbind at 1 2. unfold M_bind.
  cbn [__serializers set_files].
  change (for_ (od_keys (__serializers s))
            (emit_context output_path context prefix suffix all_contexts)
            (with_file output_path "" s) = (Returns (),
     with_file output_path (emitted s context prefix suffix all_contexts) s)).
  by rewrite emit_loop.
Qed.
End Emitter.

(** ** First-seen deduplication

    The deduplicated list in first-seen order, as the specification words
    it: an element stays where it first occurs and is removed from
    everything after. *)

Fixpoint first_seen (l : list string) : list string :=
  match l with
  | [] => []
  | x :: l' => x :: filter (λ y, y ≠ x) (first_seen l')
  end.

Lemma filter_all {A} (P : A → Prop) `{∀ x, Decision (P x)} (l : list A) :
  (∀ x, x ∈ l → P x) → filter P l = l.
Proof.
  induction l as [|x l IH]; intros HP; [done|].
  rewrite filter_cons_True by (apply HP; by left).
  f_equal. apply IH. intros y Hy. apply HP. by right.
Qed.

Lemma filter_none {A} (P : A → Prop) `{∀ x, Decision (P x)} (l : list A) :
  (∀ x, x ∈ l → ¬ P x) → filter P l = [].
Proof.
  induction l as [|x l IH]; intros HP; [done|].
  rewrite filter_cons_False by (apply HP; by left).
  apply IH. intros y Hy. apply HP. by right.
Qed.

Lemma fold_add_indexable (l acc : list string) :
  fold_left add_indexable l acc
  = acc ++ filter (λ y, y ∉ acc) (first_seen l).
Proof.
  revert acc. induction l as [|x l IH]; intros acc; simpl.
  - by rewrite app_nil_r.
  - rewrite IH. unfold add_indexable, list_contains.
    rewrite filter_cons. case_bool_decide as Hx.
    + rewrite decide_False by (by intros ?).
      f_equal. rewrite list_filter_filter. apply list_filter_iff.
      intros y. split; [|tauto]. intros Hy. split; [done|]. by intros ->.
    + rewrite decide_True by done.
      rewrite <- app_assoc. simpl. do 2 f_equal.
      rewrite list_filter_filter. apply list_filter_iff.
      intros y. rewrite elem_of_app, list_elem_of_singleton. tauto.
Qed.

Lemma indexable_first_seen (l : list string) :
  fold_left add_indexable l [] = first_seen l.
Proof.
  rewrite fold_add_indexable. simpl. apply filter_all.
  intros y _. apply not_elem_of_nil.
Qed.

Lemma elem_of_first_seen (x : string) (l : list string) :
  x ∈ first_seen l ↔ x ∈ l.
Proof.
  induction l as [|y l IH]; simpl; [done|].
  rewrite !elem_of_cons, list_elem_of_filter, IH.
  destruct (decide (x = y)); tauto.
Qed.

Lemma NoDup_first_seen (l : list string) : NoDup (first_seen l).
Proof.
  induction l as [|y l IH]; simpl; [constructor|].
  constructor.
  - rewrite list_elem_of_filter. tauto.
  - by apply NoDup_filter.
Qed.

(** ** The decorators as state transformers *)

Lemma od_lookup_setitem {V} (k : string) (v : V) (d : list (string * V)) :
  od_lookup k (od_setitem k v d) = Some v.
Proof.
  induction d as [|[k' v'] d IH]; simpl.
  - by rewrite decide_True.
  - case_decide; simpl; [by rewrite decide_True | by rewrite decide_False].
Qed.

Lemma od_lookup_setitem_ne {V} (k k' : string) (v : V) (d : list (string * V)) :
  k ≠ k' → od_lookup k' (od_setitem k v d) = od_lookup k' d.
Proof.
  intros Hne. induction d as [|[k0 v0] d IH]; simpl.
  - by rewrite decide_False by (by intros ->).
  - case_decide as Hk; simpl.
    + subst k0. by rewrite !decide_False by (by intros ->).
    + by rewrite IH.
Qed.

Lemma od_setitem_setitem {V} (k : string) (v v' : V) (d : list (string * V)) :
  od_setitem k v (od_setitem k v' d) = od_setitem k v d.
Proof.
  induction d as [|[k0 v0] d IH]; simpl.
  - by rewrite decide_True.
  - case_decide; simpl; [by rewrite decide_True|].
    rewrite decide_False by done. by rewrite IH.
Qed.

(** The keys after [d[k] = v]: unchanged when [k] is a key, [k] last
    otherwise. *)
Lemma od_keys_setitem {V} (k : string) (v : V) (d : list (string * V)) :
  od_keys (od_setitem k v d) = add_indexable (od_keys d) k.
Proof.
  unfold od_keys, add_indexable, list_contains.
  induction d as [|[k0 v0] d IH]; [done|].
  cbn [od_setitem]. destruct (decide (k = k0)) as [<-|Hk].
  - rewrite !fmap_cons. cbn [fst].
    rewrite (bool_decide_eq_true_2 (k ∈ k :: d.*1)); [done | by left].
  - rewrite !fmap_cons, IH. cbn [fst]. case_bool_decide as Hin.
    + rewrite (bool_decide_eq_true_2 (k ∈ k0 :: d.*1)); [done | by right].
    + rewrite (bool_decide_eq_false_2 (k ∈ k0 :: d.*1)); [done|].
      rewrite elem_of_cons. tauto.
Qed.

(** The state [ts_field] leaves. *)
Definition field_state (ts_type context : string) (cls : Class) (s : State)
  : State :=
  if issubclass cls serializers_Field then
    let inner := default ∅ (__field_mappings s !! context) in
    match inner !! cls with
    | Some _ => s
    | None =>
        set_field_mappings
          (<[context := <[cls := ts_type]> inner]> (__field_mappings s)) s
    end
  else s.

(** The state [ts_interface] leaves. *)
Definition interface_state (context : string)
  (mapping_overrides : option (gmap string string)) (cls : Class) (s : State)
  : State :=
  if issubclass cls serializers_Serializer then
    let s1 :=
      set_serializers
        (od_setitem context (registered s context ++ [cls]) (__serializers s)) s in
    if truthy mapping_overrides then
      let inner := default ∅ (__mapping_overrides s !! context) in
      match inner !! cls with
      | Some _ => s1
      | None =>
          set_mapping_overrides
            (<[context := <[cls := default ∅ mapping_overrides]> inner]>
               (__mapping_overrides s)) s1
      end
    else s1
  else s.

Lemma ts_field_returns ts_type context cls s :
  ts_field ts_type context cls s = (Returns cls, field_state ts_type context cls s).
Proof.
  unfold ts_field, field_state.
  destruct (issubclass cls serializers_Field); [|done].
  mstep.
  destruct (__field_mappings s !! context) as [inner|] eqn:Hctx;
    cbn [default]; unfold id.
  - rewrite (contains_true _ _ _ Hctx). cbn [negb]. mstep.
    rewrite (bind_getitem _ _ inner) by done.
    destruct (inner !! cls) eqn:Hcls.
    + rewrite (contains_true _ _ _ Hcls). cbn [negb]. by mstep.
    + rewrite (contains_false _ _ Hcls). cbn [negb]. mstep.
      rewrite (bind_getitem _ _ inner) by done. by mstep.
  - rewrite (contains_false _ _ Hctx). cbn [negb]. mstep.
    cbn [__field_mappings set_field_mappings].
    rewrite (bind_getitem _ _ ∅) by apply lookup_insert_eq.
    rewrite contains_false by apply lookup_empty. cbn [negb]. mstep.
    cbn [__field_mappings set_field_mappings].
    rewrite (bind_getitem _ _ ∅) by apply lookup_insert_eq.
    mstep. rewrite lookup_empty. unfold set_field_mappings.
    cbn [__serializers __field_mappings __mapping_overrides files].
    by rewrite insert_insert_eq.
Qed.

Lemma ts_interface_returns context mapping_overrides cls s :
  ts_interface context mapping_overrides cls s
  = (Returns cls, interface_state context mapping_overrides cls s).
Proof.
  unfold ts_interface, interface_state, registered.
  destruct (issubclass cls serializers_Serializer); [|done].
  mstep. unfold od_contains.
  (* the serializer list *)
  destruct (od_lookup context (__serializers s)) as [l|] eqn:Hctx;
    cbn [negb default]; unfold id; mstep;
    [ rewrite (bind_od_getitem _ _ l) by done
    | cbn [__serializers set_serializers];
      rewrite (bind_od_getitem _ _ []) by apply od_lookup_setitem;
      rewrite od_setitem_setitem ];
    mstep; cbn [app].
  (* the overrides, the same in both cases *)
  all: destruct (truthy mapping_overrides); mstep; [|done].
  all: cbn [__mapping_overrides set_serializers].
  all: destruct (__mapping_overrides s !! context) as [inner|] eqn:Hmo;
    cbn [default]; unfold id;
    [ rewrite (contains_true _ _ _ Hmo); cbn [negb]; mstep;
      cbn [__mapping_overrides];
      rewrite (bind_getitem _ _ inner) by done;
      destruct (inner !! cls) eqn:Hcls;
      [ rewrite (contains_true _ _ _ Hcls); cbn [negb]; by mstep
      | rewrite (contains_false _ _ Hcls); cbn [negb]; mstep;
        cbn [__mapping_overrides];
        rewrite (bind_getitem _ _ inner) by done; by mstep ]
    | rewrite (contains_false _ _ Hmo); cbn [negb]; mstep;
      cbn [__mapping_overrides set_mapping_overrides];
      rewrite (bind_getitem _ _ ∅) by apply lookup_insert_eq;
      rewrite contains_false by apply lookup_empty; cbn [negb]; mstep;
      cbn [__mapping_overrides set_mapping_overrides];
      rewrite (bind_getitem _ _ ∅) by apply lookup_insert_eq;
      mstep; rewrite lookup_empty; unfold set_mapping_overrides;
      cbn [__serializers __field_mappings __mapping_overrides files];
      by rewrite insert_insert_eq ].
Qed.

(** ** Registration and the registries *)

Lemma registered_is_Some (s : State) (context : string) (cls : Class) :
  cls ∈ registered s context → is_Some (od_lookup context (__serializers s)).
Proof.
  unfold registered. destruct (od_lookup context (__serializers s)); [by eexists|].
  by intros ?%elem_of_nil.
Qed.

Lemma tier_schema_registered s context kind prefix suffix :
  tier_schema s context kind prefix suffix
  = if bool_decide (kind ∈ registered s context)
    then Some (__get_interface_name (__name__ kind) prefix suffix)
    else None.
Proof.
  unfold tier_schema, registered.
  destruct (od_lookup context (__serializers s)); [done|].
  rewrite bool_decide_eq_false_2; [done | apply not_elem_of_nil].
Qed.

(** Array notation, appended for a field with a [child]. *)
Definition array_of (field : FieldInstance) (t : string) : string :=
  if hasattr_child field then t +:+ "[]" else t.

(** What one registration of a serializer class does to [__serializers]. *)
Definition register_step (d : list (string * list Class)) (r : string * Class)
  : list (string * list Class) :=
  od_setitem r.1 (default [] (od_lookup r.1 d) ++ [r.2]) d.

Lemma interface_state_serializers context mapping_overrides cls s :
  issubclass cls serializers_Serializer = true →
  __serializers (interface_state context mapping_overrides cls s)
  = register_step (__serializers s) (context, cls).
Proof.
  intros Hsub. unfold interface_state, register_step, registered.
  rewrite Hsub. destruct (truthy mapping_overrides); [|done].
  by destruct (default ∅ (__mapping_overrides s !! context) !! cls).
Qed.

Lemma registered_interface_state context mapping_overrides cls s c :
  issubclass cls serializers_Serializer = true →
  registered (interface_state context mapping_overrides cls s) c
  = if decide (context = c) then registered s c ++ [cls] else registered s c.
Proof.
  intros Hsub. unfold registered at 1.
  rewrite interface_state_serializers by done. unfold register_step.
  cbn [fst snd]. case_decide as Hc.
  - subst c. by rewrite od_lookup_setitem.
  - by rewrite od_lookup_setitem_ne.
Qed.

(** [ts_interface] applied, in order, to every class of a list of
    (context, class) pairs, as a module's decorators are when it loads. *)
Definition register_all (regs : list (string * Class)) : M () :=
  for_ regs (λ r, ts_interface r.1 None r.2;; mret ()).

Lemma register_all_returns (regs : list (string * Class)) (s : State) :
  (∀ r, r ∈ regs → issubclass r.2 serializers_Serializer = true) →
  ∃ s', register_all regs s = (Returns (), s')
        ∧ __serializers s' = fold_left register_step regs (__serializers s)
        ∧ __field_mappings s' = __field_mappings s
        ∧ __mapping_overrides s' = __mapping_overrides s
        ∧ files s' = files s.
Proof.
  revert s. induction regs as [|[c cls] regs IH]; intros s Hsub.
  - by exists s.
  - assert (Hcls : issubclass cls serializers_Serializer = true)
      by (apply (Hsub (c, cls)); by left).
    unfold register_all. cbn [for_]. mstep.
    unfold mbind at 1. unfold M_bind. rewrite ts_interface_returns. mstep.
    destruct (IH (interface_state c None cls s)) as (s' & Hrun & H1 & H2 & H3 & H4).
    { intros r Hr. apply Hsub. by right. }
    exists s'. split; [exact Hrun|].
    rewrite H1, H2, H3, H4.
    rewrite interface_state_serializers by done.
    unfold interface_state. by rewrite Hcls.
Qed.

Lemma od_keys_register_all (regs : list (string * Class))
    (d : list (string * list Class)) :
  od_keys (fold_left register_step regs d)
  = fold_left add_indexable (regs.*1) (od_keys d).
Proof.
  revert d. induction regs as [|r regs IH]; intros d; [done|].
  rewrite fmap_cons. cbn [fold_left]. rewrite IH. f_equal.
  unfold register_step. by rewrite od_keys_setitem.
Qed.

Lemma od_lookup_register_all (regs : list (string * Class))
    (d : list (string * list Class)) (c : string) :
  default [] (od_lookup c (fold_left register_step regs d))
  = default [] (od_lookup c d) ++ (filter (λ r, r.1 = c) regs).*2.
Proof.
  revert d. induction regs as [|r regs IH]; intros d.
  - by rewrite app_nil_r.
  - cbn [fold_left]. rewrite IH. unfold register_step.
    rewrite filter_cons. case_decide as Hc.
    + rewrite <- Hc, od_lookup_setitem. cbn [default]. unfold id.
      rewrite fmap_cons. by rewrite <- app_assoc.
    + by rewrite od_lookup_setitem_ne.
Qed.

Lemma concat_empty_app (l1 l2 : list string) :
  String.concat "" (l1 ++ l2) = String.concat "" l1 +:+ String.concat "" l2.
Proof.
  induction l1 as [|x l1 IH]; [done|].
  rewrite <- app_comm_cons, !concat_empty_cons, IH. by rewrite append_assoc.
Qed.

Lemma NoDup_add_indexable (l : list string) (k : string) :
  NoDup l → NoDup (add_indexable l k).
Proof.
  intros Hnd. unfold add_indexable, list_contains. case_bool_decide; [done|].
  apply NoDup_app. split; [done|]. split; [|apply NoDup_singleton].
  intros x Hx ->%list_elem_of_singleton. done.
Qed.

Lemma filter_selected_one (context : string) (keys : list string) :
  NoDup keys → context ∈ keys →
  filter (λ c, selected false context c) keys = [context].
Proof.
  intros Hnd Hin. induction Hnd as [|k keys Hk Hnd IH];
    [by apply elem_of_nil in Hin|].
  rewrite filter_cons. unfold selected at 1. cbn [orb].
  destruct (decide (context = k)) as [->|Hne].
  - rewrite decide_True by (by apply bool_decide_pack).
    f_equal. apply filter_none. intros c Hc. unfold selected. cbn [orb].
    intros Heq%bool_decide_unpack. by subst c.
  - rewrite decide_False by (by intros ?%bool_decide_unpack).
    apply IH. apply elem_of_cons in Hin. tauto.
Qed.

(** ** A sample project

    The classes of the specification's end-to-end examples, a field class of
    the project's own, and a class that is no field at all. *)

Definition IntegerField : Class := MkClass 1 "IntegerField" IsField.
Definition CharField : Class := MkClass 2 "CharField" IsField.
Definition ListField : Class := MkClass 3 "ListField" IsField.
Definition UserSerializer : Class := MkClass 4 "UserSerializer" IsSerializer.
Definition AddressSerializer : Class :=
  MkClass 5 "AddressSerializer" IsSerializer.
Definition MoneyField : Class := MkClass 6 "MoneyField" IsField.
Definition Plain : Class := MkClass 7 "Plain" NotAField.
Definition ReportSerializer : Class :=
  MkClass 8 "ReportSerializer" IsSerializer.

Definition sample_mappings : gmap Class string :=
  {[ IntegerField := "number"; CharField := "string" ]}.

Definition sample_fields (cls : Class) : list (string * FieldInstance) :=
  if decide (cls = UserSerializer) then
    [ ("id", Instance IntegerField None);
      ("tags", Instance ListField (Some (Instance CharField None))) ]
  else if decide (cls = ReportSerializer) then
    [ ("a", Instance IntegerField None);
      ("b", Instance CharField None);
      ("c", Instance IntegerField None);
      ("d", Instance MoneyField None) ]
  else [].

(** [UserSerializer] alone, registered in "default"; the output file holds
    text from an earlier run. *)
Definition user_state : State :=
  (ts_interface "default" None UserSerializer
     (initial_state {[ "out.ts" := "stale" ]})).2.

(** [AddressSerializer] and [UserSerializer], both in "default". *)
Definition nested_state : State :=
  ((ts_interface "default" None AddressSerializer;;
    ts_interface "default" None UserSerializer) (initial_state ∅)).2.

(** [AddressSerializer] is registered, carries a field-kind override of its
    own, and [UserSerializer] overrides the field name [address]. *)
Definition overridden_state : State :=
  ((ts_interface "default" None AddressSerializer;;
    ts_interface "default" (Some {[ "address" := "Y" ]}) UserSerializer;;
    ts_field "X" "default" AddressSerializer) (initial_state ∅)).2.

(** [MoneyField] is given the empty string as its type. *)
Definition empty_override_state : State :=
  ((ts_interface "default" None UserSerializer;;
    ts_field "" "default" MoneyField) (initial_state ∅)).2.

Definition report_state : State :=
  (ts_interface "default" None ReportSerializer (initial_state ∅)).2.

(** [UserSerializer] decorated twice for "default", then the file is
    generated. *)
Definition registered_twice : outcome () * State :=
  (ts_interface "default" None UserSerializer;;
   ts_interface "default" None UserSerializer;;
   generate_ts sample_mappings sample_fields sample_fields
     "out.ts" "default" "" "" false) (initial_state ∅).

(** * The claims *)

(** C1. For a field of a schema registered in context C the resolver follows
    the ordered chain, first match wins: the base kind is a schema registered
    in C (tier 2), in "default" (tier 3), C has a field-kind override
    (tier 4), "default" has one (tier 5), the owning schema has an override
    for the field name in C (tier 6), the static table (tier 7).  In
    particular a kind registered in C resolves to its synthesized name
    whatever overrides exist, and a matching kind-level override shadows a
    per-field-name override. *)
Theorem C1_resolution_follows_tier_order
    (mappings : gmap Class string) (s : State) (field_name : string)
    (field : FieldInstance) (context : string) (schema : Class)
    (prefix suffix : string) :
  schema ∈ registered s context →
  let kind := base_kind field in
  let name := __get_interface_name (__name__ kind) prefix suffix in
  let resolves_to t :=
    __process_field mappings field_name field context schema prefix suffix s
    = (Returns (field_name, array_of field t), s) in
  (* the chain as a whole *)
  resolves_to
    (first_match
       [ tier_schema s context kind prefix suffix;
         tier_schema s __default_context kind prefix suffix;
         tier_field_kind s context kind;
         tier_field_kind s __default_context kind;
         tier_field_name s context schema field_name ]
       (tier_static mappings kind))
  (* tier by tier *)
  ∧ (kind ∈ registered s context → resolves_to name)
  ∧ (kind ∉ registered s context → kind ∈ registered s __default_context →
     resolves_to name)
  ∧ (kind ∉ registered s context → kind ∉ registered s __default_context →
     ∀ t, tier_field_kind s context kind = Some t → resolves_to t)
  ∧ (kind ∉ registered s context → kind ∉ registered s __default_context →
     tier_field_kind s context kind = None →
     ∀ t, tier_field_kind s __default_context kind = Some t → resolves_to t)
  ∧ (kind ∉ registered s context → kind ∉ registered s __default_context →
     tier_field_kind s context kind = None →
     tier_field_kind s __default_context kind = None →
     ∀ t, tier_field_name s context schema field_name = Some t → resolves_to t)
  ∧ (kind ∉ registered s context → kind ∉ registered s __default_context →
     tier_field_kind s context kind = None →
     tier_field_kind s __default_context kind = None →
     tier_field_name s context schema field_name = None →
     resolves_to (default "any" (mappings !! kind))).
Proof.
  intros Hreg kind name resolves_to.
  assert (Hrun : ∀ t,
    resolve_base mappings s field_name field context schema prefix suffix = t →
    resolves_to t).
  { intros t <-. subst resolves_to. cbv beta.
    rewrite __process_field_returns by eauto using registered_is_Some.
    done. }
  unfold resolve_base, tiers in Hrun. fold kind in Hrun.
  rewrite !tier_schema_registered in *. fold name in Hrun |- *.
  split; [by apply Hrun|].
  repeat split; intros; apply Hrun; cbn [first_match];
    repeat match goal with
    | H : _ ∈ _ |- _ => rewrite (bool_decide_eq_true_2 _ H)
    | H : _ ∉ _ |- _ => rewrite (bool_decide_eq_false_2 _ H)
    | H : _ = Some _ |- _ => rewrite H
    | H : _ = None |- _ => rewrite H
    end; done.
Qed.

(** C3. A field with a [child] of kind K resolves to what a field of kind K
    without a [child] resolves to (same context, schema and field name), with
    "[]" appended; the class of the wrapping field plays no part. *)
Theorem C3_collection_appends_array_notation
    (mappings : gmap Class string) (s : State) (field_name : string)
    (c : FieldInstance) (context : string) (schema : Class)
    (prefix suffix : string) :
  schema ∈ registered s context →
  ∃ t,
    __process_field mappings field_name (Instance (type_ c) None)
      context schema prefix suffix s
    = (Returns (field_name, t), s)
    ∧ ∀ wrapper,
        base_kind (Instance wrapper (Some c)) = type_ c
        ∧ __process_field mappings field_name (Instance wrapper (Some c))
            context schema prefix suffix s
          = (Returns (field_name, t +:+ "[]"), s).
Proof.
  intros Hreg%registered_is_Some.
  exists (resolve_base mappings s field_name (Instance (type_ c) None)
            context schema prefix suffix).
  split; [by rewrite __process_field_returns|].
  intros wrapper. split; [done|]. by rewrite __process_field_returns.
Qed.

Lemma append_array_nonempty (t : string) : t +:+ "[]" ≠ "".
Proof. by destruct t. Qed.

(** C5, as amended.  For a field of a schema registered in a registered
    context the resolver returns one type string, raises nothing and leaves
    the state as it was.  The string is not empty when the field has a
    [child], or when the synthesized interface name of the base kind, the
    kind-level overrides of the context and of "default", the per-field-name
    override and the static table's entry, where they exist, are not empty.  When no schema registration and no override
    matches, the string is the static table's entry, "any" when the table has
    none (with "[]" appended for a field with a [child]). *)
Theorem C5_resolution_total
    (mappings : gmap Class string) (s : State) (field_name : string)
    (field : FieldInstance) (context : string) (schema : Class)
    (prefix suffix : string) :
  schema ∈ registered s context →
  let kind := base_kind field in
  (∃ t,
     __process_field mappings field_name field context schema prefix suffix s
     = (Returns (field_name, t), s)
     ∧ (hasattr_child field = true → t ≠ "")
     ∧ (__get_interface_name (__name__ kind) prefix suffix ≠ "" →
        (∀ o, tier_field_kind s context kind = Some o → o ≠ "") →
        (∀ o, tier_field_kind s __default_context kind = Some o → o ≠ "") →
        (∀ o, tier_field_name s context schema field_name = Some o → o ≠ "") →
        (∀ o, mappings !! kind = Some o → o ≠ "") →
        t ≠ ""))
  ∧ (kind ∉ registered s context → kind ∉ registered s __default_context →
     tier_field_kind s context kind = None →
     tier_field_kind s __default_context kind = None →
     tier_field_name s context schema field_name = None →
     __process_field mappings field_name field context schema prefix suffix s
     = (Returns (field_name, array_of field (default "any" (mappings !! kind))),
        s)).
Proof.
  intros Hreg%registered_is_Some kind.
  rewrite __process_field_returns by done.
  unfold resolve, resolve_base, tiers. fold kind.
  rewrite !tier_schema_registered.
  split.
  - eexists. split; [reflexivity|]. split.
    + intros ->. apply append_array_nonempty.
    + intros Hname Hkind Hkind' Hfield Hstatic.
      destruct (hasattr_child field); [apply append_array_nonempty|].
      cbn [first_match].
      repeat case_bool_decide; try done.
      destruct (tier_field_kind s context kind) eqn:H4; [by eapply Hkind|].
      destruct (tier_field_kind s __default_context kind) eqn:H5;
        [by eapply Hkind'|].
      destruct (tier_field_name s context schema field_name) eqn:H6;
        [by eapply Hfield|].
      unfold tier_static.
      destruct (mappings !! kind) eqn:H7; [by eapply Hstatic | done].
  - intros H2 H3 H4 H5 H6. cbn [first_match].
    rewrite !bool_decide_eq_false_2 by done.
    by rewrite H4, H5, H6.
Qed.

Lemma re_sub_Serializer_end_unfold (name : string) :
  re_sub_Serializer_end name
  = if decide (name = "Serializer") then ""
    else if decide (name = "Serializer" +:+ nl) then nl
    else match name with
         | EmptyString => EmptyString
         | String c rest => String c (re_sub_Serializer_end rest)
         end.
Proof. by destruct name. Qed.

Lemma length_append (a b : string) :
  String.length (a +:+ b) = String.length a + String.length b.
Proof.
  induction a as [|c a IH]; [done|]. rewrite append_cons. simpl.
  by rewrite IH.
Qed.

(** One trailing "Serializer" is stripped, whatever stands before it. *)
Lemma re_sub_Serializer_end_strips (base : string) :
  re_sub_Serializer_end (base +:+ "Serializer") = base.
Proof.
  induction base as [|c base IH]; [done|].
  rewrite append_cons, re_sub_Serializer_end_unfold.
  rewrite decide_False.
  2:{ intros H%(f_equal String.length). simpl in H.
      rewrite length_append in H. simpl in H. lia. }
  rewrite decide_False; [by rewrite IH|].
  intros H. pose proof (f_equal String.length H) as Hlen. simpl in Hlen.
  rewrite length_append in Hlen. simpl in Hlen.
  destruct base; [|simpl in Hlen; lia].
  vm_compute in H. by inversion H.
Qed.

(** C7. For a schema S registered in the context being rendered, or in
    "default", a field of kind S without a [child] resolves to the very name
    the renderer gives S's own block: prefix, S's declared name with one
    trailing "Serializer" stripped, suffix; no array notation is added. *)
Theorem C7_nested_reference_matches_block_name
    (mappings : gmap Class string)
    (_declared_fields get_fields : Class → list (string * FieldInstance))
    (s : State) (S : Class) (field_name context : string) (schema : Class)
    (prefix suffix : string) :
  schema ∈ registered s context →
  S ∈ registered s context ∨ S ∈ registered s __default_context →
  let name := prefix +:+ re_sub_Serializer_end (__name__ S) +:+ suffix in
  __process_field mappings field_name (Instance S None)
    context schema prefix suffix s
  = (Returns (field_name, name), s)
  ∧ (∀ c, S ∈ registered s c →
     ∃ body,
       __get_ts_interface mappings _declared_fields get_fields
         S c prefix suffix s
       = (Returns ("  export interface " +:+ name +:+ " {" +:+ nl +:+ body), s))
  ∧ (∀ base, __name__ S = base +:+ "Serializer" →
     name = prefix +:+ base +:+ suffix).
Proof.
  intros Hreg HS name. split; [|split].
  - rewrite __process_field_returns by eauto using registered_is_Some.
    unfold resolve, resolve_base, tiers. cbn [hasattr_child child base_kind type_].
    rewrite !tier_schema_registered. cbn [first_match].
    destruct HS as [HS|HS].
    + by rewrite (bool_decide_eq_true_2 _ HS).
    + rewrite (bool_decide_eq_true_2 _ HS). by case_bool_decide.
  - intros c Hc. eexists.
    rewrite __get_ts_interface_returns by eauto using registered_is_Some.
    unfold render, __get_interface_name. by fold name.
  - intros base Hbase. subst name.
    by rewrite Hbase, re_sub_Serializer_end_strips.
Qed.

(** C2.  The code does not keep the claim: [ts_interface] appends the class
    to the context's list without looking whether it is there, where the
    same decorator guards [__mapping_overrides] and [ts_field] guards
    [__field_mappings] against a second registration.  After two
    registrations of a Serializer subclass in one context the class stands
    twice at the end of the context's list, and the file [generate_ts]
    writes for that context holds the block [__get_ts_interface] returns for
    the class twice. *)
Theorem C2_reregistration_appends
    (mappings : gmap Class string)
    (_declared_fields get_fields : Class → list (string * FieldInstance))
    (s : State) (context : string)
    (overrides overrides' : option (gmap string string)) (cls : Class)
    (output_path prefix suffix : string) :
  issubclass cls serializers_Serializer = true →
  NoDup (od_keys (__serializers s)) →
  ∃ s1 s2 s3 (block : Class → string),
    ts_interface context overrides cls s = (Returns cls, s1)
    ∧ ts_interface context overrides' cls s1 = (Returns cls, s2)
    ∧ registered s2 context = registered s context ++ [cls; cls]
    ∧ (∀ c, c ∈ registered s2 context →
       __get_ts_interface mappings _declared_fields get_fields
         c context prefix suffix s2
       = (Returns (block c), s2))
    ∧ generate_ts mappings _declared_fields get_fields
        output_path context prefix suffix false s2
      = (Returns (), s3)
    ∧ files s3 !! output_path
      = Some ((nl +:+ "declare namespace " +:+ context +:+ " {" +:+ nl +:+ nl)
              +:+ String.concat "" (block <$> registered s context)
              +:+ block cls
              +:+ block cls
              +:+ "}").
Proof.
  intros Hsub Hnd.
  set (s1 := interface_state context overrides cls s).
  set (s2 := interface_state context overrides' cls s1).
  exists s1, s2. eexists.
  exists (λ c, render mappings _declared_fields get_fields
                 s2 c context prefix suffix).
  subst s1 s2. rewrite !ts_interface_returns, generate_ts_returns.
  split; [done|]. split; [done|].
  set (s1 := interface_state context overrides cls s).
  set (s2 := interface_state context overrides' cls s1).
  assert (Hreg : registered s2 context = registered s context ++ [cls; cls]).
  { subst s1 s2. rewrite !registered_interface_state by done.
    rewrite !decide_True by done. by rewrite <- app_assoc. }
  assert (Hsers : __serializers s2
                  = register_step (register_step (__serializers s) (context, cls))
                      (context, cls)).
  { subst s1 s2. by rewrite !interface_state_serializers by done. }
  assert (Hnd2 : NoDup (od_keys (__serializers s2))).
  { rewrite Hsers. unfold register_step. rewrite !od_keys_setitem.
    by do 2 apply NoDup_add_indexable. }
  assert (Hin : context ∈ od_keys (__serializers s2)).
  { apply od_lookup_is_Some. rewrite Hsers. unfold register_step at 1.
    cbn [fst]. rewrite od_lookup_setitem. by eexists. }
  split; [done|]. split; [|split; [done|]].
  - intros c Hc.
    by rewrite __get_ts_interface_returns by eauto using registered_is_Some.
  - unfold with_file, set_files. cbn [files]. rewrite lookup_insert_eq.
    f_equal. unfold emitted. rewrite filter_selected_one by done.
    cbn [fmap list_fmap String.concat]. unfold namespace_block.
    rewrite Hreg, fmap_app, concat_empty_app.
    rewrite !fmap_cons, !concat_empty_cons. cbn [fmap list_fmap String.concat].
    by rewrite !append_assoc.
Qed.

(** C6. The index signature of a rendered schema is the union of its
    fields' resolved type strings without duplicates, each at its first
    occurrence in field order; for resolved types A, B, A, C it reads
    A | B | C. *)
Theorem C6_index_signature_first_seen
    (mappings : gmap Class string)
    (_declared_fields get_fields : Class → list (string * FieldInstance))
    (s : State) (serializer : Class) (context prefix suffix : string) :
  serializer ∈ registered s context →
  let fields :=
    resolved_fields mappings _declared_fields get_fields
      s serializer context prefix suffix in
  let types := fields.*2 in
  __get_ts_interface mappings _declared_fields get_fields
    serializer context prefix suffix s
  = (Returns
       ("  export interface "
        +:+ __get_interface_name (__name__ serializer) prefix suffix
        +:+ " {" +:+ nl
        +:+ ("    [x: string]: "
             +:+ String.concat " | " (first_seen types) +:+ ";") +:+ nl
        +:+ String.concat nl (field_line <$> fields)
        +:+ nl +:+ "  }" +:+ nl +:+ nl), s)
  ∧ NoDup (first_seen types)
  ∧ (∀ t, t ∈ first_seen types ↔ t ∈ types)
  ∧ (∀ A B C, types = [A; B; A; C] → A ≠ B → A ≠ C → B ≠ C →
     String.concat " | " (first_seen types) = A +:+ " | " +:+ B +:+ " | " +:+ C).
Proof.
  intros Hreg%registered_is_Some fields types.
  split; [|split; [|split]].
  - rewrite __get_ts_interface_returns by done.
    unfold render, indexable_types, index_signature_line.
    fold fields. fold types. by rewrite indexable_first_seen.
  - apply NoDup_first_seen.
  - intros t. apply elem_of_first_seen.
  - intros A B C -> HAB HAC HBC. cbn [first_seen].
    repeat match goal with
    | |- context [filter ?P (?x :: ?l)] =>
        first [ rewrite (filter_cons_True P x l) by (cbv beta; congruence)
              | rewrite (filter_cons_False P x l) by (cbv beta; naive_solver) ]
    | |- context [filter ?P []] => rewrite (filter_nil P)
    end.
    done.
Qed.

(** C8. The decorators never raise.  [ts_interface] on a class that is not
    a Serializer subclass, and [ts_field] on a class that is not a Field
    subclass, leave the state as it was; in every case the decorated class
    is what the decorator returns. *)
Theorem C8_registration_never_raises
    (ts_type context : string)
    (mapping_overrides : option (gmap string string)) (cls : Class)
    (s : State) :
  (ts_field ts_type context cls s).1 = Returns cls
  ∧ (ts_interface context mapping_overrides cls s).1 = Returns cls
  ∧ (issubclass cls serializers_Field = false →
     ts_field ts_type context cls s = (Returns cls, s))
  ∧ (issubclass cls serializers_Serializer = false →
     ts_interface context mapping_overrides cls s = (Returns cls, s)).
Proof.
  rewrite ts_field_returns, ts_interface_returns.
  unfold field_state, interface_state.
  repeat split; try done; by intros ->.
Qed.

(** C9. With [all_contexts] unset and a [context] that no serializer was
    registered in, [generate_ts] raises nothing, writes no namespace block
    and leaves the output file empty, whatever it held before: the file is
    opened for writing before the contexts are filtered. *)
Theorem C9_unmatched_context_truncates
    (mappings : gmap Class string)
    (_declared_fields get_fields : Class → list (string * FieldInstance))
    (s : State) (output_path context prefix suffix : string) :
  context ∉ od_keys (__serializers s) →
  generate_ts mappings _declared_fields get_fields
    output_path context prefix suffix false s
  = (Returns (), set_files (<[output_path := ""]> (files s)) s)
  ∧ files (set_files (<[output_path := ""]> (files s)) s) !! output_path
    = Some "".
Proof.
  intros Hctx. split; [|apply lookup_insert_eq].
  rewrite generate_ts_returns. unfold with_file, emitted.
  rewrite filter_none; [done|].
  intros c Hc. unfold selected. cbn [orb].
  rewrite bool_decide_eq_false_2; [by intros ?|]. by intros ->.
Qed.

(** C10. A registered schema without fields still gets its block: the
    interface line, the index-signature line with an empty union,
    "[x: string]: ;", an empty field section and the closing brace. *)
Theorem C10_empty_field_list
    (mappings : gmap Class string)
    (_declared_fields get_fields : Class → list (string * FieldInstance))
    (s : State) (serializer : Class) (context prefix suffix : string) :
  serializer ∈ registered s context →
  fields_of _declared_fields get_fields serializer = [] →
  __get_ts_interface mappings _declared_fields get_fields
    serializer context prefix suffix s
  = (Returns
       (String.concat nl
          [ "  export interface "
            +:+ __get_interface_name (__name__ serializer) prefix suffix
            +:+ " {";
            "    [x: string]: ;";
            "";
            "  }";
            "";
            "" ]), s).
Proof.
  intros Hreg%registered_is_Some Hfields.
  rewrite __get_ts_interface_returns by done.
  unfold render, indexable_types, resolved_fields, index_signature_line.
  rewrite Hfields. cbn [fmap list_fmap fold_left String.concat].
  by rewrite !append_assoc.
Qed.

(** In a state without overrides, a kind that is no registered schema
    resolves through the static table. *)
Lemma resolve_base_static mappings s field_name field context schema
    prefix suffix :
  base_kind field ∉ registered s context →
  base_kind field ∉ registered s __default_context →
  __field_mappings s = ∅ →
  __mapping_overrides s = ∅ →
  resolve_base mappings s field_name field context schema prefix suffix
  = default "any" (mappings !! base_kind field).
Proof.
  intros H2 H3 Hfm Hmo. unfold resolve_base, tiers.
  rewrite !tier_schema_registered, !bool_decide_eq_false_2 by done.
  unfold tier_field_kind, tier_field_name. rewrite Hfm, Hmo, !lookup_empty.
  done.
Qed.

(** C4. A schema named UserSerializer with a field [id] of a kind the
    static table maps to "number" and a field [tags] whose child's kind it
    maps to "string", registered in "default" without overrides, is emitted
    as the namespace block of the specification's example, after the line
    feed that opens every namespace block.  In general the file holds the
    namespace blocks of the selected contexts in the order the contexts were
    first registered, each with the blocks of its serializers in the order
    they were registered. *)
Theorem C4_end_to_end_and_order
    (mappings : gmap Class string)
    (_declared_fields get_fields : Class → list (string * FieldInstance)) :
  (∀ (User int_kind str_kind coll : Class) (output_path : string)
     (fs : gmap string string),
     __name__ User = "UserSerializer" →
     issubclass User serializers_Serializer = true →
     mappings !! int_kind = Some "number" →
     mappings !! str_kind = Some "string" →
     int_kind ≠ User → str_kind ≠ User →
     fields_of _declared_fields get_fields User
     = [ ("id", Instance int_kind None);
         ("tags", Instance coll (Some (Instance str_kind None))) ] →
     ∃ s s',
       ts_interface "default" None User (initial_state fs) = (Returns User, s)
       ∧ generate_ts mappings _declared_fields get_fields
           output_path "default" "" "" false s
         = (Returns (), s')
       ∧ files s' !! output_path
         = Some (String.concat nl
                   [ "";
                     "declare namespace default {";
                     "";
                     "  export interface User {";
                     "    [x: string]: number | string[];";
                     "    id: number;";
                     "    tags: string[];";
                     "  }";
                     "";
                     "}" ]))
  ∧ (∀ (regs : list (string * Class)) (fs : gmap string string)
       (output_path context prefix suffix : string) (all_contexts : bool),
       (∀ r, r ∈ regs → issubclass r.2 serializers_Serializer = true) →
       ∃ s s' (block : string → Class → string),
         register_all regs (initial_state fs) = (Returns (), s)
         ∧ (∀ c cls, cls ∈ registered s c →
            __get_ts_interface mappings _declared_fields get_fields
              cls c prefix suffix s
            = (Returns (block c cls), s))
         ∧ generate_ts mappings _declared_fields get_fields
             output_path context prefix suffix all_contexts s
           = (Returns (), s')
         ∧ files s' !! output_path
           = Some (String.concat ""
               ((λ c,
                   (nl +:+ "declare namespace " +:+ c +:+ " {" +:+ nl +:+ nl)
                   +:+ String.concat ""
                         (block c <$> (filter (λ r, r.1 = c) regs).*2)
                   +:+ "}")
                  <$> filter (λ c, selected all_contexts context c)
                        (first_seen (regs.*1))))).
Proof.
  split.
  - intros User int_kind str_kind coll output_path fs
      Hname Hsub Hint Hstr Hne_int Hne_str Hfields.
    do 2 eexists. rewrite ts_interface_returns, generate_ts_returns.
    split; [done|]. split; [done|].
    unfold with_file, set_files. cbn [files]. rewrite lookup_insert_eq.
    f_equal. unfold interface_state. rewrite Hsub. cbn [truthy].
    set (s := set_serializers _ _).
    assert (Hkeys : od_keys (__serializers s) = ["default"]) by done.
    assert (Hreg : ∀ c,
      registered s c = if decide (c = "default") then [User] else []).
    { intros c. unfold registered. subst s. cbn. by case_decide. }
    assert (Hres : ∀ field_name field,
      base_kind field ≠ User →
      resolve mappings s field_name field "default" User "" ""
      = array_of field (default "any" (mappings !! base_kind field))).
    { intros field_name field Hne. unfold resolve.
      rewrite resolve_base_static; try done.
      all: rewrite Hreg; cbn; by intros ?%list_elem_of_singleton. }
    unfold emitted. rewrite Hkeys.
    rewrite filter_cons_True by done. rewrite filter_nil.
    cbn [fmap list_fmap]. unfold namespace_block.
    rewrite Hreg. rewrite decide_True by done.
    cbn [fmap list_fmap]. unfold render, indexable_types, resolved_fields.
    rewrite Hfields. cbn [fmap list_fmap fst snd].
    rewrite !Hres by done. unfold array_of, __get_interface_name.
    cbn [hasattr_child child base_kind type_].
    rewrite Hname, Hint, Hstr. vm_compute. reflexivity.
  - intros regs fs output_path context prefix suffix all_contexts Hsub.
    destruct (register_all_returns regs (initial_state fs) Hsub)
      as (s & Hrun & Hsers & _).
    exists s. eexists.
    exists (λ c cls, render mappings _declared_fields get_fields
                       s cls c prefix suffix).
    rewrite generate_ts_returns.
    split; [done|]. split; [|split; [done|]].
    + intros c cls Hc.
      by rewrite __get_ts_interface_returns by eauto using registered_is_Some.
    + unfold with_file, set_files. cbn [files]. rewrite lookup_insert_eq.
      f_equal. unfold emitted. rewrite Hsers, od_keys_register_all.
      cbn [initial_state __serializers od_keys fmap list_fmap].
      rewrite indexable_first_seen. f_equal.
      apply list_fmap_ext. intros _ c _.
      unfold namespace_block, registered.
      rewrite Hsers, od_lookup_register_all. done.
Qed.


(** C1 on the sample project: [AddressSerializer] is registered, has a
    field-kind override and a per-field-name override stands for [address];
    the field still resolves to the schema's name. *)
Lemma C1_witness :
  UserSerializer ∈ registered overridden_state "default"
  ∧ tier_field_kind overridden_state "default" AddressSerializer = Some "X"
  ∧ tier_field_name overridden_state "default" UserSerializer "address"
    = Some "Y"
  ∧ __process_field sample_mappings "address"
      (Instance AddressSerializer None) "default" UserSerializer "" ""
      overridden_state
    = (Returns ("address", "Address"), overridden_state).
Proof.
  assert (Hreg : UserSerializer ∈ registered overridden_state "default")
    by (apply (bool_decide_unpack _); vm_compute; exact I).
  split; [exact Hreg|]. split; [vm_compute; reflexivity|].
  split; [vm_compute; reflexivity|].
  destruct (C1_resolution_follows_tier_order sample_mappings overridden_state
              "address" (Instance AddressSerializer None) "default"
              UserSerializer "" "" Hreg) as (_ & Htier2 & _).
  apply Htier2. apply (bool_decide_unpack _). vm_compute. exact I.
Defined.

(** C3 on the sample project: [tags], a list of [CharField]. *)
Lemma C3_witness :
  UserSerializer ∈ registered user_state "default"
  ∧ __process_field sample_mappings "tags" (Instance CharField None)
      "default" UserSerializer "" "" user_state
    = (Returns ("tags", "string"), user_state)
  ∧ __process_field sample_mappings "tags"
      (Instance ListField (Some (Instance CharField None)))
      "default" UserSerializer "" "" user_state
    = (Returns ("tags", "string[]"), user_state).
Proof.
  assert (Hreg : UserSerializer ∈ registered user_state "default")
    by (apply (bool_decide_unpack _); vm_compute; exact I).
  destruct (C3_collection_appends_array_notation sample_mappings user_state
              "tags" (Instance CharField None) "default" UserSerializer
              "" "" Hreg) as (t & Hplain & Hmany).
  assert (Ht : t = "string").
  { assert (Hrun : __process_field sample_mappings "tags"
                     (Instance CharField None) "default" UserSerializer
                     "" "" user_state
                   = (Returns ("tags", "string"), user_state))
      by (vm_compute; reflexivity).
    cbn [type_] in Hplain. rewrite Hrun in Hplain. congruence. }
  subst t. split; [exact Hreg|]. split; [exact Hplain|].
  exact (proj2 (Hmany ListField)).
Defined.

(** C5, as the specification states it, fails: a field kind registered with
    the empty string as its type resolves to the empty string. *)
Lemma C5_counterexample :
  UserSerializer ∈ registered empty_override_state "default"
  ∧ __process_field sample_mappings "price" (Instance MoneyField None)
      "default" UserSerializer "" "" empty_override_state
    = (Returns ("price", ""), empty_override_state).
Proof.
  split; [apply (bool_decide_unpack _); vm_compute; exact I|].
  vm_compute. reflexivity.
Qed.

(** C5 on the sample project: [id] resolves to a non-empty string, and a
    kind nothing is registered for resolves to "any". *)
Lemma C5_witness :
  UserSerializer ∈ registered user_state "default"
  ∧ (∃ t,
       __process_field sample_mappings "id" (Instance IntegerField None)
         "default" UserSerializer "" "" user_state
       = (Returns ("id", t), user_state)
       ∧ t ≠ "")
  ∧ __process_field sample_mappings "price" (Instance MoneyField None)
      "default" UserSerializer "" "" user_state
    = (Returns ("price", "any"), user_state).
Proof.
  assert (Hreg : UserSerializer ∈ registered user_state "default")
    by (apply (bool_decide_unpack _); vm_compute; exact I).
  split; [exact Hreg|]. split.
  - destruct (C5_resolution_total sample_mappings user_state "id"
                (Instance IntegerField None) "default" UserSerializer "" ""
                Hreg) as [(t & Hrun & _ & Hne) _].
    exists t. split; [exact Hrun|]. apply Hne.
    + vm_compute. discriminate.
    + intros o H. vm_compute in H. discriminate.
    + intros o H. vm_compute in H. discriminate.
    + intros o H. vm_compute in H. discriminate.
    + intros o H. vm_compute in H. injection H as <-. discriminate.
  - destruct (C5_resolution_total sample_mappings user_state "price"
                (Instance MoneyField None) "default" UserSerializer "" ""
                Hreg) as [_ Hstatic].
    apply Hstatic.
    + apply (bool_decide_unpack _). vm_compute. exact I.
    + apply (bool_decide_unpack _). vm_compute. exact I.
    + vm_compute. reflexivity.
    + vm_compute. reflexivity.
    + vm_compute. reflexivity.
Defined.

(** C7 on the sample project: the field [address] and the block of
    [AddressSerializer] carry the same name. *)
Lemma C7_witness :
  UserSerializer ∈ registered nested_state "default"
  ∧ AddressSerializer ∈ registered nested_state "default"
  ∧ __process_field sample_mappings "address"
      (Instance AddressSerializer None) "default" UserSerializer "" ""
      nested_state
    = (Returns ("address", "Address"), nested_state)
  ∧ ∃ body,
      __get_ts_interface sample_mappings sample_fields sample_fields
        AddressSerializer "default" "" "" nested_state
      = (Returns ("  export interface Address {" +:+ nl +:+ body),
         nested_state).
Proof.
  assert (Hreg : UserSerializer ∈ registered nested_state "default")
    by (apply (bool_decide_unpack _); vm_compute; exact I).
  assert (Haddr : AddressSerializer ∈ registered nested_state "default")
    by (apply (bool_decide_unpack _); vm_compute; exact I).
  destruct (C7_nested_reference_matches_block_name sample_mappings
              sample_fields sample_fields nested_state AddressSerializer
              "address" "default" UserSerializer "" "" Hreg (or_introl Haddr))
    as (Hfield & Hblock & _).
  split; [exact Hreg|]. split; [exact Haddr|]. split; [exact Hfield|].
  destruct (Hblock "default" Haddr) as [body Hbody].
  exists body. exact Hbody.
Defined.

(** C2 at the failing input: [UserSerializer] decorated twice for
    "default".  The class stands twice in the list and the generated file
    holds two blocks for it, where the claim has one. *)
Lemma C2_counterexample :
  registered_twice.1 = Returns ()
  ∧ __serializers registered_twice.2
    = [("default", [UserSerializer; UserSerializer])]
  ∧ files registered_twice.2 !! "out.ts"
    = Some (String.concat nl
              [ "";
                "declare namespace default {";
                "";
                "  export interface User {";
                "    [x: string]: number | string[];";
                "    id: number;";
                "    tags: string[];";
                "  }";
                "";
                "  export interface User {";
                "    [x: string]: number | string[];";
                "    id: number;";
                "    tags: string[];";
                "  }";
                "";
                "}" ]).
Proof. repeat split; vm_compute; reflexivity. Qed.

(** C2 on the sample project. *)
Lemma C2_witness :
  issubclass UserSerializer serializers_Serializer = true
  ∧ NoDup (od_keys (__serializers (initial_state ∅)))
  ∧ ∃ s1 s2 s3 (block : Class → string),
      ts_interface "default" None UserSerializer (initial_state ∅)
      = (Returns UserSerializer, s1)
      ∧ ts_interface "default" None UserSerializer s1
        = (Returns UserSerializer, s2)
      ∧ registered s2 "default" = [UserSerializer; UserSerializer]
      ∧ __get_ts_interface sample_mappings sample_fields sample_fields
          UserSerializer "default" "" "" s2
        = (Returns (block UserSerializer), s2)
      ∧ generate_ts sample_mappings sample_fields sample_fields
          "out.ts" "default" "" "" false s2
        = (Returns (), s3)
      ∧ files s3 !! "out.ts"
        = Some ((nl +:+ "declare namespace " +:+ "default" +:+ " {"
                 +:+ nl +:+ nl)
                +:+ block UserSerializer
                +:+ block UserSerializer
                +:+ "}").
Proof.
  assert (Hnd : NoDup (od_keys (__serializers (initial_state ∅))))
    by constructor.
  split; [reflexivity|]. split; [exact Hnd|].
  destruct (C2_reregistration_appends sample_mappings sample_fields
              sample_fields (initial_state ∅) "default" None None
              UserSerializer "out.ts" "" "" eq_refl Hnd)
    as (s1 & s2 & s3 & block & H1 & H2 & H3 & H4 & H5 & H6).
  exists s1, s2, s3, block.
  split; [exact H1|]. split; [exact H2|]. split; [exact H3|].
  split; [apply H4; rewrite H3; by left|].
  split; [exact H5 | exact H6].
Defined.

(** C6 on the sample project: resolved types number, string, number, any. *)
Lemma C6_witness :
  ReportSerializer ∈ registered report_state "default"
  ∧ __get_ts_interface sample_mappings sample_fields sample_fields
      ReportSerializer "default" "" "" report_state
    = (Returns
         (String.concat nl
            [ "  export interface Report {";
              "    [x: string]: number | string | any;";
              "    a: number;";
              "    b: string;";
              "    c: number;";
              "    d: any;";
              "  }";
              "";
              "" ]), report_state).
Proof.
  assert (Hreg : ReportSerializer ∈ registered report_state "default")
    by (apply (bool_decide_unpack _); vm_compute; exact I).
  split; [exact Hreg|].
  destruct (C6_index_signature_first_seen sample_mappings sample_fields
              sample_fields report_state ReportSerializer "default" "" ""
              Hreg) as (Hrun & _).
  etrans; [exact Hrun|]. vm_compute. reflexivity.
Defined.

(** C8 on the sample project: a class that is no field goes through both
    decorators untouched, and so does the state. *)
Lemma C8_witness :
  issubclass Plain serializers_Field = false
  ∧ issubclass Plain serializers_Serializer = false
  ∧ ts_field "string" "default" Plain overridden_state
    = (Returns Plain, overridden_state)
  ∧ ts_interface "default" (Some {[ "x" := "string" ]}) Plain overridden_state
    = (Returns Plain, overridden_state).
Proof.
  destruct (C8_registration_never_raises "string" "default"
              (Some {[ "x" := "string" ]}) Plain overridden_state)
    as (_ & _ & Hfield & Hinterface).
  split; [reflexivity|]. split; [reflexivity|].
  split; [apply Hfield; reflexivity | apply Hinterface; reflexivity].
Defined.

(** C9 on the sample project: the file held text before the call. *)
Lemma C9_witness :
  ("internal" ∉ od_keys (__serializers user_state))
  ∧ files user_state !! "out.ts" = Some "stale"
  ∧ ∃ s',
      generate_ts sample_mappings sample_fields sample_fields
        "out.ts" "internal" "" "" false user_state
      = (Returns (), s')
      ∧ __serializers s' = __serializers user_state
      ∧ files s' !! "out.ts" = Some "".
Proof.
  assert (Hctx : "internal" ∉ od_keys (__serializers user_state))
    by (apply (bool_decide_unpack _); vm_compute; exact I).
  split; [exact Hctx|]. split; [vm_compute; reflexivity|].
  destruct (C9_unmatched_context_truncates sample_mappings sample_fields
              sample_fields user_state "out.ts" "internal" "" "" Hctx)
    as [Hrun Hfile].
  eexists. split; [exact Hrun|]. split; [reflexivity | exact Hfile].
Defined.

(** C10 on the sample project: [AddressSerializer] declares no field. *)
Lemma C10_witness :
  AddressSerializer ∈ registered nested_state "default"
  ∧ fields_of sample_fields sample_fields AddressSerializer = []
  ∧ __get_ts_interface sample_mappings sample_fields sample_fields
      AddressSerializer "default" "" "" nested_state
    = (Returns
         (String.concat nl
            [ "  export interface Address {";
              "    [x: string]: ;";
              "";
              "  }";
              "";
              "" ]), nested_state).
Proof.
  assert (Hreg : AddressSerializer ∈ registered nested_state "default")
    by (apply (bool_decide_unpack _); vm_compute; exact I).
  split; [exact Hreg|]. split; [reflexivity|].
  exact (C10_empty_field_list sample_mappings sample_fields sample_fields
           nested_state AddressSerializer "default" "" "" Hreg eq_refl).
Defined.

(** C4 on the sample project. *)
Lemma C4_witness :
  sample_mappings !! IntegerField = Some "number"
  ∧ sample_mappings !! CharField = Some "string"
  ∧ fields_of sample_fields sample_fields UserSerializer
    = [ ("id", Instance IntegerField None);
        ("tags", Instance ListField (Some (Instance CharField None))) ]
  ∧ ∃ s s',
      ts_interface "default" None UserSerializer (initial_state ∅)
      = (Returns UserSerializer, s)
      ∧ generate_ts sample_mappings sample_fields sample_fields
          "out.ts" "default" "" "" false s
        = (Returns (), s')
      ∧ files s' !! "out.ts"
        = Some (String.concat nl
                  [ "";
                    "declare namespace default {";
                    "";
                    "  export interface User {";
                    "    [x: string]: number | string[];";
                    "    id: number;";
                    "    tags: string[];";
                    "  }";
                    "";
                    "}" ]).
Proof.
  split; [vm_compute; reflexivity|]. split; [vm_compute; reflexivity|].
  split; [reflexivity|].
  apply (proj1 (C4_end_to_end_and_order sample_mappings sample_fields
                  sample_fields)
           UserSerializer IntegerField CharField ListField "out.ts" ∅).
  - reflexivity.
  - reflexivity.
  - vm_compute. reflexivity.
  - vm_compute. reflexivity.
  - discriminate.
  - discriminate.
  - reflexivity.
Defined.

(** * Further properties of the module *)

(** ** [ts_field]: what a registration leaves in [__field_mappings] *)

Lemma field_state_serializers ts_type context cls s :
  __serializers (field_state ts_type context cls s) = __serializers s.
Proof.
  unfold field_state. destruct (issubclass cls serializers_Field); [|done].
  by destruct (default ∅ (__field_mappings s !! context) !! cls).
Qed.

Lemma registered_field_state ts_type context cls s c :
  registered (field_state ts_type context cls s) c = registered s c.
Proof. unfold registered. by rewrite field_state_serializers. Qed.

Lemma field_state_mapping_overrides ts_type context cls s :
  __mapping_overrides (field_state ts_type context cls s)
  = __mapping_overrides s.
Proof.
  unfold field_state. destruct (issubclass cls serializers_Field); [|done].
  by destruct (default ∅ (__field_mappings s !! context) !! cls).
Qed.

Lemma tier_field_kind_field_state ts_type context cls s c kind :
  issubclass cls serializers_Field = true →
  tier_field_kind (field_state ts_type context cls s) c kind
  = if decide (c = context ∧ kind = cls)
    then Some (default ts_type (tier_field_kind s context cls))
    else tier_field_kind s c kind.
Proof.
  intros Hsub. unfold field_state, tier_field_kind. rewrite Hsub.
  destruct (__field_mappings s !! context) as [inner|] eqn:Hctx;
    cbn [default mbind option_bind]; unfold id.
  - destruct (inner !! cls) as [t|] eqn:Hcls.
    + case_decide as Hc; [|done]. destruct Hc as [-> ->].
      rewrite Hctx. cbn. by rewrite Hcls.
    + cbn [__field_mappings set_field_mappings].
      destruct (decide (c = context)) as [->|Hne].
      * rewrite lookup_insert_eq. cbn.
        destruct (decide (kind = cls)) as [->|Hk].
        -- rewrite decide_True by done. by rewrite lookup_insert_eq.
        -- rewrite decide_False by tauto.
           rewrite lookup_insert_ne by done. by rewrite Hctx.
      * rewrite decide_False by tauto. by rewrite lookup_insert_ne.
  - rewrite lookup_empty. cbn [__field_mappings set_field_mappings].
    destruct (decide (c = context)) as [->|Hne].
    + rewrite lookup_insert_eq. cbn.
      destruct (decide (kind = cls)) as [->|Hk].
      * rewrite decide_True by done. by rewrite lookup_insert_eq.
      * rewrite decide_False by tauto.
        rewrite lookup_insert_ne by done. by rewrite Hctx, lookup_empty.
    + rewrite decide_False by tauto. by rewrite lookup_insert_ne.
Qed.

(** X1. Decorating a field class a second time for the same context changes
    nothing: the type string of the first registration stays. *)
Theorem X1_ts_field_first_registration_wins
    (ts_type ts_type' context : string) (cls : Class) (s : State) :
  issubclass cls serializers_Field = true →
  ∃ s1,
    ts_field ts_type context cls s = (Returns cls, s1)
    ∧ ts_field ts_type' context cls s1 = (Returns cls, s1)
    ∧ tier_field_kind s1 context cls
      = Some (default ts_type (tier_field_kind s context cls)).
Proof.
  intros Hsub. eexists. rewrite !ts_field_returns.
  split; [done|].
  assert (Hkind : tier_field_kind (field_state ts_type context cls s) context cls
                  = Some (default ts_type (tier_field_kind s context cls))).
  { rewrite tier_field_kind_field_state by done. by rewrite decide_True. }
  split; [|done]. f_equal.
  unfold tier_field_kind in Hkind.
  unfold field_state at 1. rewrite Hsub.
  destruct (__field_mappings (field_state ts_type context cls s) !! context)
    as [inner|]; [|done].
  cbn in Hkind. cbn [default]. unfold id. by rewrite Hkind.
Qed.

(** X2. A field-kind override is found again by the resolver: registered for
    the context being rendered, or for "default", it is the type of every
    field of that kind (with "[]" for a field with a [child]), as long as the
    kind is no registered schema and had no override before. *)
Theorem X2_field_override_round_trip
    (mappings : gmap Class string) (ts_type reg_context context : string)
    (cls : Class) (s : State) (field_name : string) (field : FieldInstance)
    (schema : Class) (prefix suffix : string) :
  issubclass cls serializers_Field = true →
  reg_context = context ∨ reg_context = __default_context →
  schema ∈ registered s context →
  base_kind field = cls →
  cls ∉ registered s context →
  cls ∉ registered s __default_context →
  tier_field_kind s context cls = None →
  tier_field_kind s __default_context cls = None →
  ∃ s1,
    ts_field ts_type reg_context cls s = (Returns cls, s1)
    ∧ __process_field mappings field_name field context schema prefix suffix s1
      = (Returns (field_name, array_of field ts_type), s1).
Proof.
  intros Hsub Hreg Hschema Hkind H2 H3 H4 H5.
  eexists. rewrite ts_field_returns. split; [done|].
  rewrite __process_field_returns.
  2:{ rewrite field_state_serializers. eauto using registered_is_Some. }
  unfold resolve, resolve_base, tiers. rewrite Hkind.
  rewrite !tier_schema_registered, !registered_field_state.
  rewrite !bool_decide_eq_false_2 by done.
  rewrite !tier_field_kind_field_state by done.
  cbn [first_match]. unfold array_of.
  destruct Hreg as [->| ->].
  - rewrite decide_True by done. by rewrite H4.
  - destruct (decide (context = __default_context)) as [->|Hne].
    + rewrite decide_True by done. by rewrite H5.
    + rewrite decide_False by tauto. rewrite H4.
      rewrite decide_True by done. by rewrite H5.
Qed.

(** X12. The prefix and the suffix reach interface names only: a field
    whose kind is no registered schema resolves to the same type whatever
    prefix and suffix are passed. *)
Theorem X12_prefix_suffix_only_in_interface_names
    (mappings : gmap Class string) (s : State) (field_name : string)
    (field : FieldInstance) (context : string) (schema : Class)
    (prefix suffix prefix' suffix' : string) :
  schema ∈ registered s context →
  base_kind field ∉ registered s context →
  base_kind field ∉ registered s __default_context →
  __process_field mappings field_name field context schema prefix suffix s
  = __process_field mappings field_name field context schema prefix' suffix' s.
Proof.
  intros Hschema%registered_is_Some H2 H3.
  rewrite !__process_field_returns by done.
  unfold resolve, resolve_base, tiers.
  rewrite !tier_schema_registered, !bool_decide_eq_false_2 by done.
  done.
Qed.

(** X11. Contexts are separate: what the resolver returns in a context
    depends on the serializers and field-kind overrides of that context and
    of "default", and on the per-field-name overrides of that context alone.
    Registrations under other contexts, and per-field-name overrides under
    "default", play no part. *)
Theorem X11_resolution_reads_context_and_default_only
    (mappings : gmap Class string) (s s' : State) (field_name : string)
    (field : FieldInstance) (context : string) (schema : Class)
    (prefix suffix : string) :
  schema ∈ registered s context →
  od_lookup context (__serializers s') = od_lookup context (__serializers s) →
  od_lookup __default_context (__serializers s')
  = od_lookup __default_context (__serializers s) →
  __field_mappings s' !! context = __field_mappings s !! context →
  __field_mappings s' !! __default_context
  = __field_mappings s !! __default_context →
  __mapping_overrides s' !! context = __mapping_overrides s !! context →
  (__process_field mappings field_name field context schema prefix suffix s').1
  = (__process_field mappings field_name field context schema prefix suffix s).1.
Proof.
  intros Hschema%registered_is_Some Hc Hd Hfc Hfd Hmc.
  rewrite !__process_field_returns by (by rewrite ?Hc).
  unfold resolve, resolve_base, tiers, tier_schema, tier_field_kind,
    tier_field_name.
  by rewrite Hc, Hd, Hfc, Hfd, Hmc.
Qed.

(** X13. The renderer called for a context no serializer was registered in:
    with a field to resolve, [__serializers[context]] raises [KeyError] and
    the state stays as it was; without any field nothing is looked up and
    the block is returned. *)
Theorem X13_unregistered_context_raises_KeyError
    (mappings : gmap Class string)
    (_declared_fields get_fields : Class → list (string * FieldInstance))
    (s : State) (serializer : Class) (context prefix suffix : string) :
  od_lookup context (__serializers s) = None →
  (∀ field_name field schema,
     __process_field mappings field_name field context schema prefix suffix s
     = (Raises KeyError, s))
  ∧ (fields_of _declared_fields get_fields serializer ≠ [] →
     __get_ts_interface mappings _declared_fields get_fields
       serializer context prefix suffix s
     = (Raises KeyError, s))
  ∧ (fields_of _declared_fields get_fields serializer = [] →
     __get_ts_interface mappings _declared_fields get_fields
       serializer context prefix suffix s
     = (Returns
          (String.concat nl
             [ "  export interface "
               +:+ __get_interface_name (__name__ serializer) prefix suffix
               +:+ " {";
               "    [x: string]: ;";
               "";
               "  }";
               "";
               "" ]), s)).
Proof.
  intros Hctx. split; [|split].
  - intros. by apply __process_field_raises.
  - intros Hfields. unfold __get_ts_interface.
    fold (fields_of _declared_fields get_fields serializer).
    destruct (fields_of _declared_fields get_fields serializer)
      as [|[k v] rest]; [done|].
    cbn [for_fold]. unfold mbind, M_bind. cbn [fst snd].
    by rewrite __process_field_raises.
  - intros Hfields. unfold __get_ts_interface.
    fold (fields_of _declared_fields get_fields serializer).
    rewrite Hfields. cbn [for_fold]. mstep.
    cbn [fst snd String.concat]. unfold mret, M_ret.
    by rewrite !append_assoc.
Qed.

(** X14. [ts_field] writes one entry and nothing else: the override of
    every other (context, class) pair is what it was, and so are the
    registered serializers, the per-field-name overrides and the files. *)
Theorem X14_ts_field_touches_one_entry
    (ts_type context : string) (cls : Class) (s : State)
    (c : string) (kind : Class) :
  ¬ (c = context ∧ kind = cls) →
  ∃ s1,
    ts_field ts_type context cls s = (Returns cls, s1)
    ∧ tier_field_kind s1 c kind = tier_field_kind s c kind
    ∧ __serializers s1 = __serializers s
    ∧ __mapping_overrides s1 = __mapping_overrides s
    ∧ files s1 = files s.
Proof.
  intros Hother. eexists. rewrite ts_field_returns. split; [done|].
  rewrite field_state_serializers, field_state_mapping_overrides.
  destruct (issubclass cls serializers_Field) eqn:Hsub.
  - rewrite tier_field_kind_field_state, decide_False by done.
    do 3 (split; [done|]). unfold field_state. rewrite Hsub.
    by destruct (default ∅ (__field_mappings s !! context) !! cls).
  - unfold field_state. by rewrite Hsub.
Qed.

(** ** [ts_interface]: what a registration leaves in [__mapping_overrides] *)

(** [__mapping_overrides[context][cls]], when both keys are there. *)
Definition overrides_of (s : State) (context : string) (cls : Class)
  : option (gmap string string) :=
  m ← __mapping_overrides s !! context; m !! cls.

Lemma tier_field_name_overrides_of s context schema field_name :
  tier_field_name s context schema field_name
  = (o ← overrides_of s context schema; o !! field_name).
Proof.
  unfold tier_field_name, overrides_of.
  by destruct (__mapping_overrides s !! context).
Qed.

Lemma interface_state_field_mappings context mapping_overrides cls s :
  __field_mappings (interface_state context mapping_overrides cls s)
  = __field_mappings s.
Proof.
  unfold interface_state.
  destruct (issubclass cls serializers_Serializer); [|done].
  destruct (truthy mapping_overrides); [|done].
  by destruct (default ∅ (__mapping_overrides s !! context) !! cls).
Qed.

Lemma overrides_of_interface_state context mapping_overrides cls s c k :
  issubclass cls serializers_Serializer = true →
  overrides_of (interface_state context mapping_overrides cls s) c k
  = if decide (c = context ∧ k = cls ∧ truthy mapping_overrides = true)
    then Some (default (default ∅ mapping_overrides)
                       (overrides_of s context cls))
    else overrides_of s c k.
Proof.
  intros Hsub. unfold interface_state, overrides_of. rewrite Hsub.
  destruct (truthy mapping_overrides) eqn:Htruthy; cbn zeta.
  2:{ rewrite decide_False; [done|]. by intros (_ & _ & ?). }
  destruct (__mapping_overrides s !! context) as [inner|] eqn:Hctx;
    cbn [default mbind option_bind]; unfold id.
  - destruct (inner !! cls) as [o|] eqn:Hcls.
    + cbn [__mapping_overrides set_serializers].
      case_decide as Hc; [|done]. destruct Hc as (-> & -> & _).
      rewrite Hctx. cbn. by rewrite Hcls.
    + cbn [__mapping_overrides set_mapping_overrides].
      destruct (decide (c = context)) as [->|Hne].
      * rewrite lookup_insert_eq. cbn.
        destruct (decide (k = cls)) as [->|Hk].
        -- rewrite decide_True by done. by rewrite lookup_insert_eq.
        -- rewrite decide_False by tauto.
           rewrite lookup_insert_ne by done. by rewrite Hctx.
      * rewrite decide_False by tauto. by rewrite lookup_insert_ne.
  - rewrite lookup_empty. cbn [__mapping_overrides set_mapping_overrides].
    destruct (decide (c = context)) as [->|Hne].
    + rewrite lookup_insert_eq. cbn.
      destruct (decide (k = cls)) as [->|Hk].
      * rewrite decide_True by done. by rewrite lookup_insert_eq.
      * rewrite decide_False by tauto.
        rewrite lookup_insert_ne by done. by rewrite Hctx, lookup_empty.
    + rewrite decide_False by tauto. by rewrite lookup_insert_ne.
Qed.

(** X3. The per-field-name overrides of a serializer are those of its first
    registration in the context that passed a non-empty dict: a later
    registration never replaces them, and a registration with [None] or with
    an empty dict records nothing. *)
Theorem X3_mapping_overrides_first_wins
    (context : string) (overrides : gmap string string)
    (overrides' : option (gmap string string)) (cls : Class) (s : State) :
  issubclass cls serializers_Serializer = true →
  overrides ≠ ∅ →
  (∃ s1 s2,
     ts_interface context (Some overrides) cls s = (Returns cls, s1)
     ∧ ts_interface context overrides' cls s1 = (Returns cls, s2)
     ∧ overrides_of s1 context cls
       = Some (default overrides (overrides_of s context cls))
     ∧ overrides_of s2 context cls = overrides_of s1 context cls)
  ∧ __mapping_overrides (ts_interface context None cls s).2
    = __mapping_overrides s
  ∧ __mapping_overrides (ts_interface context (Some ∅) cls s).2
    = __mapping_overrides s.
Proof.
  intros Hsub Hne.
  assert (Htruthy : truthy (Some overrides) = true).
  { cbn. by rewrite bool_decide_eq_false_2. }
  split; [|split].
  - do 2 eexists. rewrite !ts_interface_returns.
    split; [done|]. split; [done|].
    assert (H1 : overrides_of (interface_state context (Some overrides) cls s)
                   context cls
                 = Some (default overrides (overrides_of s context cls))).
    { rewrite overrides_of_interface_state by done.
      by rewrite decide_True by done. }
    split; [done|].
    rewrite overrides_of_interface_state by done.
    case_decide; [|done]. by rewrite H1.
  - rewrite ts_interface_returns. unfold interface_state.
    by rewrite Hsub.
  - rewrite ts_interface_returns. unfold interface_state.
    rewrite Hsub. cbn [truthy]. by rewrite bool_decide_eq_true_2.
Qed.

(** X4. A per-field-name override is found again by the resolver: after
    [ts_interface(context, mapping_overrides)] on a serializer without
    earlier overrides there, a field named in the dict whose kind is neither
    a registered schema nor covered by a field-kind override resolves to the
    dict's entry, whatever the static table says of its kind. *)
Theorem X4_name_override_round_trip
    (mappings : gmap Class string) (context : string)
    (overrides : gmap string string) (schema : Class) (s : State)
    (field_name : string) (field : FieldInstance) (t prefix suffix : string) :
  issubclass schema serializers_Serializer = true →
  overrides !! field_name = Some t →
  overrides_of s context schema = None →
  base_kind field ≠ schema →
  base_kind field ∉ registered s context →
  base_kind field ∉ registered s __default_context →
  tier_field_kind s context (base_kind field) = None →
  tier_field_kind s __default_context (base_kind field) = None →
  ∃ s1,
    ts_interface context (Some overrides) schema s = (Returns schema, s1)
    ∧ __process_field mappings field_name field context schema prefix suffix s1
      = (Returns (field_name, array_of field t), s1).
Proof.
  intros Hsub Hov Hnone Hself H2 H3 H4 H5.
  assert (Hne : overrides ≠ ∅).
  { intros ->. by rewrite lookup_empty in Hov. }
  assert (Htruthy : truthy (Some overrides) = true).
  { cbn. by rewrite bool_decide_eq_false_2. }
  eexists. rewrite ts_interface_returns. split; [done|].
  set (s1 := interface_state context (Some overrides) schema s).
  assert (Hreg : ∀ c, base_kind field ∉ registered s c →
                      base_kind field ∉ registered s1 c).
  { intros c Hc. subst s1. rewrite registered_interface_state by done.
    case_decide; [|done].
    rewrite elem_of_app, list_elem_of_singleton. tauto. }
  rewrite __process_field_returns.
  2:{ apply (registered_is_Some _ _ schema). subst s1.
      rewrite registered_interface_state, decide_True by done.
      rewrite elem_of_app, list_elem_of_singleton. tauto. }
  unfold resolve, resolve_base, tiers.
  rewrite !tier_schema_registered.
  rewrite !bool_decide_eq_false_2 by auto.
  unfold tier_field_kind in *. subst s1.
  rewrite interface_state_field_mappings, H4, H5.
  rewrite tier_field_name_overrides_of, overrides_of_interface_state by done.
  rewrite decide_True by done. rewrite Hnone. cbn. by rewrite Hov.
Qed.

(** ** [generate_ts]: what a run does to the state *)

(** X5. Once the file is open and the host has handed over the field
    lists, [generate_ts] raises nothing of its own: although
    [__serializers[context]] raises [KeyError] for a context that is no key
    (X13), every subscript evaluated during a run is on a key the loop
    iterates over, whatever the registries hold.  The run leaves the three
    registries as they were. *)
Theorem X5_generate_ts_raises_no_KeyError
    (mappings : gmap Class string)
    (_declared_fields get_fields : Class → list (string * FieldInstance))
    (s : State) (output_path context prefix suffix : string)
    (all_contexts : bool) :
  ∃ s',
    generate_ts mappings _declared_fields get_fields
      output_path context prefix suffix all_contexts s
    = (Returns (), s')
    ∧ __serializers s' = __serializers s
    ∧ __field_mappings s' = __field_mappings s
    ∧ __mapping_overrides s' = __mapping_overrides s.
Proof. eexists. by rewrite generate_ts_returns. Qed.

(** X6. With [all_contexts] set the [context] argument is not looked at:
    the file holds the namespace block of every declared context, in
    declaration order. *)
Theorem X6_all_contexts_ignores_context
    (mappings : gmap Class string)
    (_declared_fields get_fields : Class → list (string * FieldInstance))
    (s : State) (output_path context context' prefix suffix : string) :
  generate_ts mappings _declared_fields get_fields
    output_path context prefix suffix true s
  = generate_ts mappings _declared_fields get_fields
      output_path context' prefix suffix true s
  ∧ files (generate_ts mappings _declared_fields get_fields
             output_path context prefix suffix true s).2 !! output_path
    = Some (String.concat ""
              ((λ c, namespace_block mappings _declared_fields get_fields
                       s c prefix suffix) <$> od_keys (__serializers s))).
Proof.
  rewrite !generate_ts_returns. unfold emitted, selected. cbn [orb].
  rewrite !filter_all by done.
  split; [done|]. unfold with_file, set_files. cbn [files snd].
  apply lookup_insert_eq.
Qed.

(** X7. The output file is rewritten, not extended: what [generate_ts]
    leaves in it does not depend on what any file held before, and running
    it a second time with the same arguments changes nothing. *)
Theorem X7_generate_ts_overwrites
    (mappings : gmap Class string)
    (_declared_fields get_fields : Class → list (string * FieldInstance))
    (s : State) (output_path context prefix suffix : string)
    (all_contexts : bool) (fs : gmap string string) :
  let run := generate_ts mappings _declared_fields get_fields
               output_path context prefix suffix all_contexts in
  run (run s).2 = (Returns (), (run s).2)
  ∧ files (run (set_files fs s)).2 !! output_path
    = files (run s).2 !! output_path.
Proof.
  intros run. subst run. rewrite !generate_ts_returns. cbn [snd].
  split.
  - f_equal. unfold with_file, set_files. cbn [files __serializers
      __field_mappings __mapping_overrides].
    by rewrite insert_insert_eq.
  - unfold with_file, set_files. cbn [files].
    by rewrite !lookup_insert_eq.
Qed.

(** X8. With [all_contexts] unset and a declared [context], the file holds
    that context's namespace block and nothing else: the opening line feed
    and namespace line, the blocks of the context's serializers in
    registration order, and the closing brace, with no line feed after
    it. *)
Theorem X8_one_context_one_namespace_block
    (mappings : gmap Class string)
    (_declared_fields get_fields : Class → list (string * FieldInstance))
    (s : State) (output_path context prefix suffix : string) :
  NoDup (od_keys (__serializers s)) →
  context ∈ od_keys (__serializers s) →
  ∃ s' (block : Class → string),
    generate_ts mappings _declared_fields get_fields
      output_path context prefix suffix false s
    = (Returns (), s')
    ∧ (∀ cls, cls ∈ registered s context →
       __get_ts_interface mappings _declared_fields get_fields
         cls context prefix suffix s
       = (Returns (block cls), s))
    ∧ files s' !! output_path
      = Some ((nl +:+ "declare namespace " +:+ context +:+ " {" +:+ nl +:+ nl)
              +:+ String.concat "" (block <$> registered s context)
              +:+ "}").
Proof.
  intros Hnd Hin. eexists.
  exists (λ cls, render mappings _declared_fields get_fields
                   s cls context prefix suffix).
  rewrite generate_ts_returns. split; [done|]. split.
  - intros cls Hcls.
    by rewrite __get_ts_interface_returns by eauto using registered_is_Some.
  - unfold with_file, set_files. cbn [files]. rewrite lookup_insert_eq.
    f_equal. unfold emitted. rewrite filter_selected_one by done.
    cbn [fmap list_fmap String.concat]. done.
Qed.

(** ** An invariant of the registries *)

(** What holds of the registries however the decorators were used: a
    context is declared once (the keys of a dict) and with at least one
    class; only Serializer subclasses are registered; only Field subclasses
    carry a field-kind override; per-field-name overrides are non-empty and
    belong to a class registered in their context. *)
Definition registry_ok (s : State) : Prop :=
  NoDup (od_keys (__serializers s))
  ∧ (∀ c l, od_lookup c (__serializers s) = Some l →
       l ≠ [] ∧ ∀ cls, cls ∈ l → issubclass cls serializers_Serializer = true)
  ∧ (∀ c cls t, tier_field_kind s c cls = Some t →
       issubclass cls serializers_Field = true)
  ∧ (∀ c cls o, overrides_of s c cls = Some o →
       o ≠ ∅ ∧ cls ∈ registered s c).

Lemma registry_ok_field_state ts_type context cls s :
  registry_ok s → registry_ok (field_state ts_type context cls s).
Proof.
  intros (Hnd & Hsers & Hfm & Hmo).
  destruct (issubclass cls serializers_Field) eqn:Hsub.
  2:{ unfold field_state. by rewrite Hsub. }
  unfold registry_ok, overrides_of.
  rewrite field_state_serializers, field_state_mapping_overrides.
  split; [done|]. split; [done|]. split.
  - intros c k t. rewrite tier_field_kind_field_state by done.
    case_decide as Hc; [|apply Hfm]. by destruct Hc as [_ ->].
  - intros c k o Ho. rewrite registered_field_state. by apply Hmo.
Qed.

Lemma registry_ok_interface_state context mapping_overrides cls s :
  registry_ok s → registry_ok (interface_state context mapping_overrides cls s).
Proof.
  intros (Hnd & Hsers & Hfm & Hmo).
  destruct (issubclass cls serializers_Serializer) eqn:Hsub.
  2:{ unfold interface_state. by rewrite Hsub. }
  unfold registry_ok.
  rewrite interface_state_serializers by done. unfold register_step.
  cbn [fst snd]. split; [|split; [|split]].
  - rewrite od_keys_setitem. by apply NoDup_add_indexable.
  - intros c l. destruct (decide (context = c)) as [<-|Hne].
    + rewrite od_lookup_setitem. intros [= <-]. split.
      * by destruct (default [] (od_lookup context (__serializers s))).
      * intros k [Hk| ->%list_elem_of_singleton]%elem_of_app; [|done].
        destruct (od_lookup context (__serializers s)) as [l|] eqn:Hl;
          [|by apply elem_of_nil in Hk].
        by apply (Hsers context l).
    + rewrite od_lookup_setitem_ne by done. apply Hsers.
  - intros c k t. unfold tier_field_kind.
    rewrite interface_state_field_mappings. apply Hfm.
  - intros c k o. rewrite overrides_of_interface_state by done.
    rewrite registered_interface_state by done.
    case_decide as Hc.
    + destruct Hc as (-> & -> & Htruthy). intros [= <-]. split.
      * destruct (overrides_of s context cls) as [o|] eqn:Ho;
          [by apply (Hmo context cls) |].
        destruct mapping_overrides as [d|]; [|done]. cbn in *.
        by case_bool_decide.
      * rewrite decide_True by done.
        rewrite elem_of_app, list_elem_of_singleton. tauto.
    + intros Ho. destruct (Hmo c k o Ho) as [Hne Hin]. split; [done|].
      case_decide; [|done]. rewrite elem_of_app. tauto.
Qed.

(** X9. The invariant [registry_ok] holds when the module is loaded and is
    kept by [ts_field], by [ts_interface] and by [generate_ts], whatever
    their arguments. *)
Theorem X9_registry_invariant
    (mappings : gmap Class string)
    (_declared_fields get_fields : Class → list (string * FieldInstance)) :
  (∀ fs, registry_ok (initial_state fs))
  ∧ ∀ s, registry_ok s →
      (∀ ts_type context cls,
         registry_ok (ts_field ts_type context cls s).2)
      ∧ (∀ context mapping_overrides cls,
           registry_ok (ts_interface context mapping_overrides cls s).2)
      ∧ (∀ output_path context prefix suffix all_contexts,
           registry_ok
             (generate_ts mappings _declared_fields get_fields
                output_path context prefix suffix all_contexts s).2).
Proof.
  split.
  - intros fs. unfold registry_ok, tier_field_kind, overrides_of. cbn.
    split; [constructor|]. split; [done|].
    split; intros c k x; by rewrite lookup_empty.
  - intros s Hok. split; [|split].
    + intros. rewrite ts_field_returns. by apply registry_ok_field_state.
    + intros. rewrite ts_interface_returns.
      by apply registry_ok_interface_state.
    + intros. by rewrite generate_ts_returns.
Qed.

(** ** [__get_interface_name]: what the substitution leaves alone *)

(** X10. [re.sub('Serializer$', '', name)] changes only the end of a name:
    a name that does not end in "Serializer", nor in "Serializer" and a line
    feed, is returned as it is, wherever else "Serializer" occurs in it;
    before a final line feed the suffix is removed and the line feed
    kept. *)
Theorem X10_interface_name_without_suffix (prefix suffix : string) :
  (∀ name,
     (∀ base, name ≠ base +:+ "Serializer") →
     (∀ base, name ≠ base +:+ "Serializer" +:+ nl) →
     __get_interface_name name prefix suffix = prefix +:+ name +:+ suffix)
  ∧ (∀ base,
       __get_interface_name (base +:+ "Serializer" +:+ nl) prefix suffix
       = prefix +:+ (base +:+ nl) +:+ suffix).
Proof.
  unfold __get_interface_name. split.
  - intros name H1 H2. do 2 f_equal.
    induction name as [|c name IH]; [done|].
    rewrite re_sub_Serializer_end_unfold.
    rewrite decide_False by apply (H1 "").
    rewrite decide_False by apply (H2 "").
    f_equal. apply IH.
    + intros base ->. by apply (H1 (String c base)).
    + intros base ->. by apply (H2 (String c base)).
  - intros base. do 2 f_equal.
    induction base as [|c base IH]; [done|].
    rewrite append_cons, re_sub_Serializer_end_unfold.
    rewrite decide_False.
    2:{ intros H%(f_equal String.length). simpl in H.
        rewrite !length_append in H. simpl in H. lia. }
    rewrite decide_False; [by rewrite IH|].
    intros H%(f_equal String.length). simpl in H.
    rewrite !length_append in H. simpl in H. lia.
Qed.

(** ** The further properties on the sample project *)

(** [UserSerializer] in "internal" and in "default". *)
Definition two_contexts_state : State :=
  ((ts_interface "internal" None UserSerializer;;
    ts_interface "default" None UserSerializer) (initial_state ∅)).2.

(** The same, with [id] overridden by name under "default". *)
Definition two_contexts_overridden : State :=
  ((ts_interface "internal" None UserSerializer;;
    ts_interface "default" (Some {[ "id" := "X" ]}) UserSerializer)
     (initial_state ∅)).2.

(** X1 on the sample project: "number", then "string", for [MoneyField]. *)
Lemma X1_witness :
  issubclass MoneyField serializers_Field = true
  ∧ ∃ s1,
      ts_field "number" "default" MoneyField (initial_state ∅)
      = (Returns MoneyField, s1)
      ∧ ts_field "string" "default" MoneyField s1 = (Returns MoneyField, s1)
      ∧ tier_field_kind s1 "default" MoneyField = Some "number".
Proof.
  split; [reflexivity|].
  destruct (X1_ts_field_first_registration_wins "number" "string" "default"
              MoneyField (initial_state ∅) eq_refl) as (s1 & H1 & H2 & H3).
  exists s1. split; [exact H1|]. split; [exact H2 | exact H3].
Defined.

(** X2 on the sample project: an override registered under "default" is
    used when "internal" is rendered. *)
Lemma X2_witness :
  UserSerializer ∈ registered two_contexts_state "internal"
  ∧ ∃ s1,
      ts_field "decimal" "default" MoneyField two_contexts_state
      = (Returns MoneyField, s1)
      ∧ __process_field sample_mappings "price" (Instance MoneyField None)
          "internal" UserSerializer "" "" s1
        = (Returns ("price", "decimal"), s1).
Proof.
  assert (Hreg : UserSerializer ∈ registered two_contexts_state "internal")
    by (apply (bool_decide_unpack _); vm_compute; exact I).
  split; [exact Hreg|].
  apply (X2_field_override_round_trip sample_mappings "decimal" "default"
           "internal" MoneyField two_contexts_state "price"
           (Instance MoneyField None) UserSerializer "" "").
  - reflexivity.
  - right. reflexivity.
  - exact Hreg.
  - reflexivity.
  - apply (bool_decide_unpack _). vm_compute. exact I.
  - apply (bool_decide_unpack _). vm_compute. exact I.
  - vm_compute. reflexivity.
  - vm_compute. reflexivity.
Defined.

(** X3 on the sample project: the second dict does not replace the first. *)
Lemma X3_witness :
  issubclass UserSerializer serializers_Serializer = true
  ∧ ∃ s1 s2,
      ts_interface "default" (Some {[ "a" := "x" ]}) UserSerializer
        (initial_state ∅)
      = (Returns UserSerializer, s1)
      ∧ ts_interface "default" (Some {[ "a" := "y" ]}) UserSerializer s1
        = (Returns UserSerializer, s2)
      ∧ overrides_of s2 "default" UserSerializer = Some {[ "a" := "x" ]}.
Proof.
  split; [reflexivity|].
  assert (Hne : ({[ "a" := "x" ]} : gmap string string) ≠ ∅).
  { intros H. apply (f_equal (λ m : gmap string string, m !! "a")) in H.
    vm_compute in H. discriminate. }
  destruct (X3_mapping_overrides_first_wins "default" {[ "a" := "x" ]}
              (Some {[ "a" := "y" ]}) UserSerializer (initial_state ∅)
              eq_refl Hne) as ((s1 & s2 & H1 & H2 & H3 & H4) & _).
  exists s1, s2. split; [exact H1|]. split; [exact H2|].
  rewrite H4. exact H3.
Defined.

(** X4 on the sample project: the override of [baz] wins over the static
    table's entry for [IntegerField]. *)
Lemma X4_witness :
  sample_mappings !! IntegerField = Some "number"
  ∧ ∃ s1,
      ts_interface "internal" (Some {[ "baz" := "string[]" ]}) UserSerializer
        (initial_state ∅)
      = (Returns UserSerializer, s1)
      ∧ __process_field sample_mappings "baz" (Instance IntegerField None)
          "internal" UserSerializer "" "" s1
        = (Returns ("baz", "string[]"), s1).
Proof.
  split; [vm_compute; reflexivity|].
  apply (X4_name_override_round_trip sample_mappings "internal"
           {[ "baz" := "string[]" ]} UserSerializer (initial_state ∅) "baz"
           (Instance IntegerField None) "string[]" "" "").
  - reflexivity.
  - vm_compute. reflexivity.
  - vm_compute. reflexivity.
  - discriminate.
  - apply (bool_decide_unpack _). vm_compute. exact I.
  - apply (bool_decide_unpack _). vm_compute. exact I.
  - vm_compute. reflexivity.
  - vm_compute. reflexivity.
Defined.

(** X8 on the sample project. *)
Lemma X8_witness :
  NoDup (od_keys (__serializers two_contexts_state))
  ∧ "internal" ∈ od_keys (__serializers two_contexts_state)
  ∧ ∃ s' (block : Class → string),
      generate_ts sample_mappings sample_fields sample_fields
        "out.ts" "internal" "" "" false two_contexts_state
      = (Returns (), s')
      ∧ (∀ cls, cls ∈ registered two_contexts_state "internal" →
         __get_ts_interface sample_mappings sample_fields sample_fields
           cls "internal" "" "" two_contexts_state
         = (Returns (block cls), two_contexts_state))
      ∧ files s' !! "out.ts"
        = Some ((nl +:+ "declare namespace " +:+ "internal" +:+ " {"
                 +:+ nl +:+ nl)
                +:+ String.concat "" (block <$> [UserSerializer])
                +:+ "}").
Proof.
  assert (Hnd : NoDup (od_keys (__serializers two_contexts_state)))
    by (apply (bool_decide_unpack _); vm_compute; exact I).
  assert (Hin : "internal" ∈ od_keys (__serializers two_contexts_state))
    by (apply (bool_decide_unpack _); vm_compute; exact I).
  split; [exact Hnd|]. split; [exact Hin|].
  exact (X8_one_context_one_namespace_block sample_mappings sample_fields
           sample_fields two_contexts_state "out.ts" "internal" "" ""
           Hnd Hin).
Defined.

(** X9 on the sample project: the state after one registration. *)
Lemma X9_witness : registry_ok user_state.
Proof.
  destruct (X9_registry_invariant sample_mappings sample_fields sample_fields)
    as [Hinit Hkeep].
  destruct (Hkeep (initial_state {[ "out.ts" := "stale" ]}) (Hinit _))
    as (_ & Hinterface & _).
  exact (Hinterface "default" None UserSerializer).
Defined.

(** X10 on the sample project: "Serializer" at the start of a name stays. *)
Lemma X10_witness :
  __get_interface_name "SerializerList" "I" "" = "ISerializerList"
  ∧ __get_interface_name ("UserSerializer" +:+ nl) "I" "" = "IUser" +:+ nl.
Proof.
  destruct (X10_interface_name_without_suffix "I" "") as [Hkeep Hnl].
  split; [|exact (Hnl "User")].
  apply (Hkeep "SerializerList").
  - intros base H. pose proof (f_equal String.length H) as Hlen.
    rewrite length_append in Hlen.
    destruct base as [|? [|? [|? [|? [|? base]]]]]; simpl in Hlen; try lia.
    vm_compute in H. discriminate H.
  - intros base H. pose proof (f_equal String.length H) as Hlen.
    rewrite !length_append in Hlen.
    destruct base as [|? [|? [|? [|? base]]]]; simpl in Hlen; try lia.
    vm_compute in H. discriminate H.
Defined.

(** X11 on the sample project: [id] is overridden by name under "default",
    and still resolves through the static table under "internal". *)
Lemma X11_witness :
  UserSerializer ∈ registered two_contexts_state "internal"
  ∧ tier_field_name two_contexts_overridden "default" UserSerializer "id"
    = Some "X"
  ∧ (__process_field sample_mappings "id" (Instance IntegerField None)
       "internal" UserSerializer "" "" two_contexts_overridden).1
    = (__process_field sample_mappings "id" (Instance IntegerField None)
         "internal" UserSerializer "" "" two_contexts_state).1.
Proof.
  assert (Hreg : UserSerializer ∈ registered two_contexts_state "internal")
    by (apply (bool_decide_unpack _); vm_compute; exact I).
  split; [exact Hreg|]. split; [vm_compute; reflexivity|].
  apply (X11_resolution_reads_context_and_default_only sample_mappings
           two_contexts_state two_contexts_overridden).
  - exact Hreg.
  - vm_compute. reflexivity.
  - vm_compute. reflexivity.
  - vm_compute. reflexivity.
  - vm_compute. reflexivity.
  - vm_compute. reflexivity.
Defined.

(** X12 on the sample project. *)
Lemma X12_witness :
  UserSerializer ∈ registered user_state "default"
  ∧ __process_field sample_mappings "id" (Instance IntegerField None)
      "default" UserSerializer "I" "Dto" user_state
    = __process_field sample_mappings "id" (Instance IntegerField None)
        "default" UserSerializer "" "" user_state.
Proof.
  assert (Hreg : UserSerializer ∈ registered user_state "default")
    by (apply (bool_decide_unpack _); vm_compute; exact I).
  split; [exact Hreg|].
  apply X12_prefix_suffix_only_in_interface_names.
  - exact Hreg.
  - apply (bool_decide_unpack _). vm_compute. exact I.
  - apply (bool_decide_unpack _). vm_compute. exact I.
Defined.

(** X13 on the sample project: nothing was registered in "internal". *)
Lemma X13_witness :
  od_lookup "internal" (__serializers user_state) = None
  ∧ __get_ts_interface sample_mappings sample_fields sample_fields
      UserSerializer "internal" "" "" user_state
    = (Raises KeyError, user_state).
Proof.
  assert (Hctx : od_lookup "internal" (__serializers user_state) = None)
    by reflexivity.
  split; [exact Hctx|].
  destruct (X13_unregistered_context_raises_KeyError sample_mappings
              sample_fields sample_fields user_state UserSerializer
              "internal" "" "" Hctx) as (_ & Hraise & _).
  apply Hraise. intros H. vm_compute in H. discriminate.
Defined.

(** X14 on the sample project: registering [MoneyField] leaves the override
    of [AddressSerializer] alone. *)
Lemma X14_witness :
  tier_field_kind overridden_state "default" AddressSerializer = Some "X"
  ∧ ∃ s1,
      ts_field "decimal" "default" MoneyField overridden_state
      = (Returns MoneyField, s1)
      ∧ tier_field_kind s1 "default" AddressSerializer = Some "X"
      ∧ __serializers s1 = __serializers overridden_state.
Proof.
  assert (Hbefore : tier_field_kind overridden_state "default"
                      AddressSerializer = Some "X")
    by (vm_compute; reflexivity).
  split; [exact Hbefore|].
  destruct (X14_ts_field_touches_one_entry "decimal" "default" MoneyField
              overridden_state "default" AddressSerializer)
    as (s1 & Hrun & Hkind & Hsers & _).
  { intros [_ H]. discriminate H. }
  exists s1. split; [exact Hrun|]. split; [|exact Hsers].
  rewrite Hkind. exact Hbefore.
Defined.
